(** * CherryPy instrumentation hook: a shallow embedding

    The development follows
    [opentelemetry/instrumentation/cherrypy/__init__.py]:
    the tool [_InstrumentationHook] with its five lifecycle callbacks, and
    [CherryPyInstrumentor] with [_instrument] / [_uninstrument].

    Python instance attributes are record fields; an attribute that only a
    callback creates is an [option] whose [None] means "not set on the
    instance" (reading it raises AttributeError).  The callbacks run in a
    state-and-exception monad over the hook object, the thread-local
    [cherrypy.serving] data and the process-wide telemetry backend. *)

From Stdlib Require Import ZArith Ascii String List Bool Lia.
From Stdlib Require Import PrimFloat FloatOps SpecFloat.
From stdpp Require Import base option gmap strings list fin_maps.

Local Open Scope string_scope.
Local Open Scope Z_scope.

(** ** Python values used by the hook *)

(** An exception object: [type(e).__name__], [str(e)] and
    [e.__traceback__] (absent when the attribute is missing). *)
Record Exn := mkExn {
  exn_type : string;
  exn_msg : string;
  exn_traceback : option nat;
}.

Definition AttributeError (attr : string) : Exn :=
  mkExn "AttributeError" attr None.
Definition OverflowError : Exn :=
  mkExn "OverflowError" "cannot convert float infinity to integer" None.
Definition ValueError : Exn :=
  mkExn "ValueError" "cannot convert float NaN to integer" None.

Inductive AttrValue :=
| VStr (s : string)
| VInt (n : Z).

(** Attribute dictionaries, WSGI environ, response headers. *)
Abbreviation Attributes := (gmap string AttrValue).
Abbreviation Environ := (gmap string string).
Abbreviation Headers := (gmap string string).

(** ** Floating-point timer arithmetic

    [default_timer()] returns a binary64 float; [round(x)] on a float
    rounds half to even and returns an int, raising on infinities and
    NaN. *)

Definition round_half_even (s : bool) (m : positive) (e : Z) : Z :=
  let mag :=
    if 0 <=? e then Z.pos m * 2 ^ e
    else
      let d := 2 ^ (- e) in
      let q := Z.pos m / d in
      let r := Z.pos m mod d in
      if 2 * r <? d then q
      else if d <? 2 * r then q + 1
      else if Z.even q then q else q + 1 in
  if s then - mag else mag.

Definition py_round (x : float) : Exn + Z :=
  match Prim2SF x with
  | S754_zero _ => inr 0
  | S754_infinity _ => inl OverflowError
  | S754_nan => inl ValueError
  | S754_finite s m e => inr (round_half_even s m e)
  end.

(** [round((now - start) * 1000)] *)
Definition elapsed_ms (now start : float) : Exn + Z :=
  py_round (PrimFloat.mul (PrimFloat.sub now start) 1000%float).

(** ** Telemetry objects (tracer, meter, spans, instruments) *)

Inductive Provider :=
| GlobalProvider                    (* the process-wide provider *)
| SuppliedProvider (name : string). (* a provider object passed by the caller *)

Record Tracer := mkTracer {
  tracer_name : string;
  tracer_version : string;
  tracer_provider : Provider;
}.

Record Meter := mkMeter {
  meter_name : string;
  meter_version : string;
  meter_provider : Provider;
}.

Inductive InstrumentKind := Histogram | UpDownCounter.

Record Instrument := mkInstrument {
  inst_kind : InstrumentKind;
  inst_name : string;
  inst_unit : string;
  inst_description : string;
  inst_meter : Meter;
}.

(** [trace.get_tracer(name, version, tracer_provider)]: a missing provider
    means the global one. *)
Definition get_tracer (name version : string) (tp : option Provider) : Tracer :=
  mkTracer name version (default GlobalProvider tp).

(** [get_meter(name, version, meter_provider)]. *)
Definition get_meter (name version : string) (mp : option Provider) : Meter :=
  mkMeter name version (default GlobalProvider mp).

Definition create_histogram (m : Meter) (name unit description : string) : Instrument :=
  mkInstrument Histogram name unit description m.

Definition create_up_down_counter (m : Meter) (name unit description : string) : Instrument :=
  mkInstrument UpDownCounter name unit description m.

Inductive SpanKind := SERVER | INTERNAL.

#[global] Instance SpanKind_eq_dec : EqDecision SpanKind.
Proof. solve_decision. Defined.

Inductive StatusCode := UNSET | OK | ERROR.

Record Status := mkStatus {
  status_code : StatusCode;
  status_description : option string;
}.

Record Span := mkSpan {
  span_name : string;
  span_kind : SpanKind;
  span_start_time : Z;
  span_sampled : bool;            (* false for a non-recording span *)
  span_attributes : Attributes;
  span_status : Status;
  span_exceptions : list Exn;     (* record_exception calls *)
  span_ended : bool;
}.

Definition is_recording (s : Span) : bool :=
  span_sampled s && negb (span_ended s).

Definition set_attribute (k : string) (v : AttrValue) (s : Span) : Span :=
  if is_recording s then
    mkSpan (span_name s) (span_kind s) (span_start_time s) (span_sampled s)
           (<[k := v]> (span_attributes s)) (span_status s)
           (span_exceptions s) (span_ended s)
  else s.

Definition set_attributes (attrs : Attributes) (s : Span) : Span :=
  if is_recording s then
    mkSpan (span_name s) (span_kind s) (span_start_time s) (span_sampled s)
           (attrs ∪ span_attributes s) (span_status s)
           (span_exceptions s) (span_ended s)
  else s.

(** [span.set_status]: ignored on a span that is not recording; a status
    of OK is final. *)
Definition set_status (st : Status) (s : Span) : Span :=
  if is_recording s then
    match status_code (span_status s) with
    | OK => s
    | _ => mkSpan (span_name s) (span_kind s) (span_start_time s)
                  (span_sampled s) (span_attributes s) st
                  (span_exceptions s) (span_ended s)
    end
  else s.

Definition record_exception (e : Exn) (s : Span) : Span :=
  if is_recording s then
    mkSpan (span_name s) (span_kind s) (span_start_time s) (span_sampled s)
           (span_attributes s) (span_status s)
           (span_exceptions s ++ [e]) (span_ended s)
  else s.

Definition end_span (s : Span) : Span :=
  mkSpan (span_name s) (span_kind s) (span_start_time s) (span_sampled s)
         (span_attributes s) (span_status s) (span_exceptions s) true.

(** The arguments of [activation.__exit__]: [None] stands for
    [(None, None, None)], otherwise (type name, value, traceback). *)
Abbreviation ExitArgs := (option (string * Exn * option nat)).

(** Calls that reach the telemetry backend, oldest first. *)
Inductive Event :=
| EvStartSpan (id : nat)
| EvCounterAdd (inst : Instrument) (delta : Z) (attrs : Attributes)
| EvHistogramRecord (inst : Instrument) (value : Z) (attrs : Attributes)
| EvUseSpanEnter (id : nat)
| EvUseSpanExit (id : nat) (args : ExitArgs)
| EvSpanEnd (id : nat)
| EvContextDetach (token : nat).

(** Process-wide state: span objects by identity and the event log. *)
Record World := mkWorld {
  spans : gmap nat Span;
  next_span : nat;
  events : list Event;
}.

Definition empty_world : World := mkWorld ∅ 0%nat [].

Definition emit (ev : Event) (w : World) : World :=
  mkWorld (spans w) (next_span w) (events w ++ [ev]).

Definition update_span (id : nat) (f : Span → Span) (w : World) : World :=
  mkWorld (alter f id (spans w)) (next_span w) (events w).

(** Counter and histogram calls found in an event log. *)
Definition counter_adds (evs : list Event) : list (Instrument * Z * Attributes) :=
  omap (λ ev, match ev with
              | EvCounterAdd i d a => Some (i, d, a)
              | _ => None
              end) evs.

Definition histogram_records (evs : list Event) : list (Instrument * Z * Attributes) :=
  omap (λ ev, match ev with
              | EvHistogramRecord i v a => Some (i, v, a)
              | _ => None
              end) evs.


(** ** The hook object and the framework's per-request data *)

(** A user callback [request_hook(span, environ)]: it may change the span
    or raise. *)
Abbreviation UserHook := (Span → Environ → Exn + Span).

(** The context manager returned by [trace.use_span(span, end_on_exit=True)];
    [act_finished] is set once its generator has run to completion. *)
Record Activation := mkActivation {
  act_span : nat;
  act_end_on_exit : bool;
  act_finished : bool;
}.

(** Instance attributes of [_InstrumentationHook].  The first group is
    assigned by [__init__]; the second group is assigned by the callbacks
    only, so each of them is absent ([None]) on a new instance. *)
Record Hook := mkHook {
  _otel_tracer : Tracer;
  duration_histogram : Instrument;
  active_requests_counter : Instrument;
  request_hook : option UserHook;
  response_hook : option UserHook;
  _otel_excluded_urls : list string;
  _is_instrumented_by_opentelemetry : bool;
  _point : string;
  _name : string;
  _priority : Z;

  span : option nat;
  token : option (option nat);
  active_requests_count_attrs : option Attributes;
  duration_attrs : option Attributes;
  activation : option Activation;
  start : option float;
  exception : option (option Exn);
}.

Definition set_enabled (b : bool) (h : Hook) : Hook :=
  mkHook (_otel_tracer h) (duration_histogram h) (active_requests_counter h)
    (request_hook h) (response_hook h) (_otel_excluded_urls h) b
    (_point h) (_name h) (_priority h)
    (span h) (token h) (active_requests_count_attrs h) (duration_attrs h)
    (activation h) (start h) (exception h).

Definition set_span_token (s : nat) (t : option nat) (h : Hook) : Hook :=
  mkHook (_otel_tracer h) (duration_histogram h) (active_requests_counter h)
    (request_hook h) (response_hook h) (_otel_excluded_urls h)
    (_is_instrumented_by_opentelemetry h) (_point h) (_name h) (_priority h)
    (Some s) (Some t) (active_requests_count_attrs h) (duration_attrs h)
    (activation h) (start h) (exception h).

Definition set_active_requests_count_attrs (a : Attributes) (h : Hook) : Hook :=
  mkHook (_otel_tracer h) (duration_histogram h) (active_requests_counter h)
    (request_hook h) (response_hook h) (_otel_excluded_urls h)
    (_is_instrumented_by_opentelemetry h) (_point h) (_name h) (_priority h)
    (span h) (token h) (Some a) (duration_attrs h)
    (activation h) (start h) (exception h).

Definition set_duration_attrs (a : Attributes) (h : Hook) : Hook :=
  mkHook (_otel_tracer h) (duration_histogram h) (active_requests_counter h)
    (request_hook h) (response_hook h) (_otel_excluded_urls h)
    (_is_instrumented_by_opentelemetry h) (_point h) (_name h) (_priority h)
    (span h) (token h) (active_requests_count_attrs h) (Some a)
    (activation h) (start h) (exception h).

Definition set_activation (a : Activation) (h : Hook) : Hook :=
  mkHook (_otel_tracer h) (duration_histogram h) (active_requests_counter h)
    (request_hook h) (response_hook h) (_otel_excluded_urls h)
    (_is_instrumented_by_opentelemetry h) (_point h) (_name h) (_priority h)
    (span h) (token h) (active_requests_count_attrs h) (duration_attrs h)
    (Some a) (start h) (exception h).

Definition set_start (t : float) (h : Hook) : Hook :=
  mkHook (_otel_tracer h) (duration_histogram h) (active_requests_counter h)
    (request_hook h) (response_hook h) (_otel_excluded_urls h)
    (_is_instrumented_by_opentelemetry h) (_point h) (_name h) (_priority h)
    (span h) (token h) (active_requests_count_attrs h) (duration_attrs h)
    (activation h) (Some t) (exception h).

Definition set_exception (e : option Exn) (h : Hook) : Hook :=
  mkHook (_otel_tracer h) (duration_histogram h) (active_requests_counter h)
    (request_hook h) (response_hook h) (_otel_excluded_urls h)
    (_is_instrumented_by_opentelemetry h) (_point h) (_name h) (_priority h)
    (span h) (token h) (active_requests_count_attrs h) (duration_attrs h)
    (activation h) (start h) (Some e).

(** The five lifecycle callbacks. *)
Inductive Callback :=
| OnStartResource
| BeforeFinalize
| OnEndResource
| AfterErrorResponse
| OnEndRequest.

(** What a callback reads from its surroundings: the thread-local
    [cherrypy.serving.request] / [cherrypy.serving.response], the exception
    being handled ([sys.exc_info()[1]]) and the two clocks. *)
Record Serving := mkServing {
  wsgi_environ : Environ;
  response_status : string;
  response_headers : Headers;
  request_hooks : list (string * Callback * Z);
  exc_info : option Exn;
  time_ns : Z;
  default_timer : float;
}.

Definition set_response_headers (hd : Headers) (sv : Serving) : Serving :=
  mkServing (wsgi_environ sv) (response_status sv) hd (request_hooks sv)
            (exc_info sv) (time_ns sv) (default_timer sv).

Definition attach (point : string) (cb : Callback) (priority : Z) (sv : Serving) : Serving :=
  mkServing (wsgi_environ sv) (response_status sv) (response_headers sv)
            (request_hooks sv ++ [(point, cb, priority)])
            (exc_info sv) (time_ns sv) (default_timer sv).

(** [environ.get('PATH_INFO', '/')] *)
Definition path_info (environ : Environ) : string :=
  default "/" (environ !! "PATH_INFO").

Definition HTTP_STATUS_CODE : string := "http.status_code".
Definition _TOOL_NAME : string := "opentelemetry-cherrypy-tool".
Definition module_name : string := "opentelemetry.instrumentation.cherrypy".

(** ** Collaborators outside this file

    The helpers of [opentelemetry.instrumentation.wsgi],
    [opentelemetry.util.http] and
    [opentelemetry.instrumentation.utils] are taken as parameters.
    [url_disabled pats url] is [ExcludeList(pats).url_disabled(url)];
    [start_span_decision] is the choice that
    [_start_internal_or_server_span] makes between a SERVER span with a
    context token and an INTERNAL span without one, together with the
    sampling decision of the tracer. *)
Class Collaborators := {
  version : string;
  _excluded_urls_from_env : list string;
  parse_excluded_urls : string → list string;
  url_disabled : list string → string → bool;
  start_span_decision : Tracer → Environ → World → SpanKind * bool * option nat;
  get_default_span_name : Environ → string;
  collect_request_attributes : Environ → Attributes;
  _parse_active_request_count_attrs : Attributes → Attributes;
  _parse_duration_attrs : Attributes → Attributes;
  collect_custom_request_headers_attributes : Environ → Attributes;
  add_response_attributes : Span → string → Headers → Span;
  _parse_status_code : string → option Z;
  collect_custom_response_headers_attributes : Headers → Attributes;
  get_global_response_propagator : option (World → Headers → Headers);
}.

(** ** The callback monad

    A callback reads and writes the hook object, the serving data and the
    world; it either returns or raises.  Assignments made before an
    exception is raised stay in the state, as in Python. *)

Record St := mkSt {
  st_hook : Hook;
  st_serving : Serving;
  st_world : World;
}.

Inductive Result (A : Type) :=
| Returned (a : A)
| Raised (e : Exn).
Arguments Returned {A} a.
Arguments Raised {A} e.

Definition M (A : Type) : Type := St → Result A * St.

#[global] Instance M_ret : MRet M := λ A a st, (Returned a, st).
#[global] Instance M_bind : MBind M := λ A B f m st,
  match m st with
  | (Returned a, st') => f a st'
  | (Raised e, st') => (Raised e, st')
  end.

Definition raise {A} (e : Exn) : M A := λ st, (Raised e, st).
Definition self : M Hook := λ st, (Returned (st_hook st), st).
Definition serving : M Serving := λ st, (Returned (st_serving st), st).
Definition world : M World := λ st, (Returned (st_world st), st).

Definition modify_hook (f : Hook → Hook) : M unit :=
  λ st, (Returned tt, mkSt (f (st_hook st)) (st_serving st) (st_world st)).
Definition modify_serving (f : Serving → Serving) : M unit :=
  λ st, (Returned tt, mkSt (st_hook st) (f (st_serving st)) (st_world st)).
Definition modify_world (f : World → World) : M unit :=
  λ st, (Returned tt, mkSt (st_hook st) (st_serving st) (f (st_world st))).

(** [self.<name>] for an attribute that may be missing. *)
Definition getattr {A} (name : string) (proj : Hook → option A) : M A :=
  h ← self;
  match proj h with
  | Some v => mret v
  | None => raise (AttributeError name)
  end.

(** Dereference a span object. *)
Definition read_span (id : nat) : M Span :=
  w ← world;
  match spans w !! id with
  | Some s => mret s
  | None => raise (mkExn "ReferenceError" "span" None)
  end.

Definition counter_add (inst : Instrument) (delta : Z) (attrs : Attributes) : M unit :=
  modify_world (emit (EvCounterAdd inst delta attrs)).

Definition histogram_record (inst : Instrument) (value : Z) (attrs : Attributes) : M unit :=
  modify_world (emit (EvHistogramRecord inst value attrs)).

Definition context_detach (token : nat) : M unit :=
  modify_world (emit (EvContextDetach token)).

Section Hook.
Context `{Collaborators}.

(** [_start_internal_or_server_span]: a new span object is created with
    the kind and token chosen by the collaborator. *)
Definition _start_internal_or_server_span
    (tracer : Tracer) (name : string) (start_time : Z) (carrier : Environ)
  : M (nat * option nat) :=
  w ← world;
  let '(kind, sampled, tok) := start_span_decision tracer carrier w in
  let id := next_span w in
  let s := mkSpan name kind start_time sampled ∅ (mkStatus UNSET None) [] false in
  modify_world (λ w, emit (EvStartSpan id)
                       (mkWorld (<[id := s]> (spans w)) (S id) (events w)));;
  mret (id, tok).

Definition call_user_hook (f : UserHook) (id : nat) (environ : Environ) : M unit :=
  s ← read_span id;
  match f s environ with
  | inl e => raise e
  | inr s' => modify_world (update_span id (λ _, s'))
  end.

(** [trace.use_span(span, end_on_exit=True)] then [__enter__()]. *)
Definition use_span (id : nat) : Activation := mkActivation id true false.

Definition activation_enter (a : Activation) : M unit :=
  modify_world (emit (EvUseSpanEnter (act_span a))).

(** [activation.__exit__(...)].  On a live activation: with an exception
    a recording span records it and gets status ERROR; the span is ended
    when [end_on_exit]; the exception is neither swallowed nor replaced,
    so the call returns.  On a finished activation the call has no
    effect. *)
Definition activation_exit (a : Activation) (args : ExitArgs) : M unit :=
  modify_world (emit (EvUseSpanExit (act_span a) args));;
  if act_finished a then mret tt
  else
    let id := act_span a in
    match args with
    | Some (ty, e, _) =>
        modify_world (update_span id (λ s,
          set_status (mkStatus ERROR (Some (ty ++ ": " ++ exn_msg e)))
                     (record_exception e s)))
    | None => mret tt
    end;;
    (if act_end_on_exit a then
       s ← read_span id;
       if span_ended s then mret tt
       else modify_world (λ w, emit (EvSpanEnd id) (update_span id end_span w))
     else mret tt);;
    modify_hook (set_activation (mkActivation id (act_end_on_exit a) true)).

(** *** [_InstrumentationHook._on_start_resource_hook]

    [self._otel_excluded_urls] is always an [ExcludeList] object, which
    is truthy, so the first guard of every callback is [url_disabled] on
    the request path alone. *)
Definition _on_start_resource_hook : M unit :=
  sv ← serving;
  let environ := wsgi_environ sv in
  h ← self;
  if url_disabled (_otel_excluded_urls h) (path_info environ) then mret tt
  else if negb (_is_instrumented_by_opentelemetry h) then mret tt
  else
    let start_time := time_ns sv in
    '(sp, tok) ← _start_internal_or_server_span
                   (_otel_tracer h) (get_default_span_name environ)
                   start_time environ;
    modify_hook (set_span_token sp tok);;
    match request_hook h with
    | Some f => sp ← getattr "span" span; call_user_hook f sp environ
    | None => mret tt
    end;;
    let attributes := collect_request_attributes environ in
    modify_hook (set_active_requests_count_attrs
                   (_parse_active_request_count_attrs attributes));;
    modify_hook (set_duration_attrs (_parse_duration_attrs attributes));;
    attrs ← getattr "active_requests_count_attrs" active_requests_count_attrs;
    counter_add (active_requests_counter h) 1 attrs;;

    sp ← getattr "span" span;
    s ← read_span sp;
    (if is_recording s then
       modify_world (update_span sp (λ s,
         map_fold (λ key value acc, set_attribute key value acc) s attributes));;
       s ← read_span sp;
       if is_recording s && bool_decide (span_kind s = SERVER) then
         let custom_attributes :=
           collect_custom_request_headers_attributes environ in
         if bool_decide (0 < size custom_attributes)%nat then
           modify_world (update_span sp (set_attributes custom_attributes))
         else mret tt
       else mret tt
     else mret tt);;

    sp ← getattr "span" span;
    modify_hook (set_activation (use_span sp));;
    a ← getattr "activation" activation;
    activation_enter a;;
    sv ← serving;
    modify_hook (set_start (default_timer sv));;
    modify_hook (set_exception None).

(** *** [_InstrumentationHook._before_finalize_hook] *)
Definition _before_finalize_hook : M unit :=
  sv ← serving;
  h ← self;
  if url_disabled (_otel_excluded_urls h) (path_info (wsgi_environ sv)) then mret tt
  else if negb (_is_instrumented_by_opentelemetry h) then mret tt
  else
    match get_global_response_propagator with
    | Some inject =>
        w ← world;
        modify_serving (set_response_headers (inject w (response_headers sv)))
    | None => mret tt
    end.

(** *** [_InstrumentationHook._on_end_resource_hook] *)
Definition _on_end_resource_hook : M unit :=
  sv ← serving;
  h ← self;
  if url_disabled (_otel_excluded_urls h) (path_info (wsgi_environ sv)) then mret tt
  else if negb (_is_instrumented_by_opentelemetry h) then mret tt
  else
    (* [if self.span:] -- a span object is always truthy *)
    sp ← getattr "span" span;
    modify_world (update_span sp (λ s,
      add_response_attributes s (response_status sv) (response_headers sv)));;
    let status_code := _parse_status_code (response_status sv) in
    match status_code with
    | Some code =>
        d ← getattr "duration_attrs" duration_attrs;
        modify_hook (set_duration_attrs (<[HTTP_STATUS_CODE := VInt code]> d))
    | None => mret tt
    end;;
    s ← read_span sp;
    if is_recording s && bool_decide (span_kind s = SERVER) then
      let custom_attributes :=
        collect_custom_response_headers_attributes (response_headers sv) in
      if bool_decide (0 < size custom_attributes)%nat then
        modify_world (update_span sp (set_attributes custom_attributes))
      else mret tt
    else mret tt.

(** *** [_InstrumentationHook._after_error_response_hook] *)
Definition _after_error_response_hook : M unit :=
  sv ← serving;
  h ← self;
  if url_disabled (_otel_excluded_urls h) (path_info (wsgi_environ sv)) then mret tt
  else if negb (_is_instrumented_by_opentelemetry h) then mret tt
  else modify_hook (set_exception (exc_info sv)).

(** [max(round((default_timer() - self.start) * 1000), 0)] *)
Definition duration_ms (now start : float) : Exn + Z :=
  match elapsed_ms now start with
  | inl e => inl e
  | inr n => inr (Z.max n 0)
  end.

(** *** [_InstrumentationHook._on_end_request_hook] *)
Definition _on_end_request_hook : M unit :=
  sv ← serving;
  h ← self;
  if url_disabled (_otel_excluded_urls h) (path_info (wsgi_environ sv)) then mret tt
  else if negb (_is_instrumented_by_opentelemetry h) then mret tt
  else
    exc ← getattr "exception" exception;
    a ← getattr "activation" activation;
    match exc with
    | None => activation_exit a None
    | Some e => activation_exit a (Some (exn_type e, e, exn_traceback e))
    end;;
    tok ← getattr "token" token;
    match tok with
    | Some t => context_detach t
    | None => mret tt
    end;;
    st ← getattr "start" start;
    match duration_ms (default_timer sv) st with
    | inl e => raise e
    | inr duration =>
        h ← self;
        d ← getattr "duration_attrs" duration_attrs;
        histogram_record (duration_histogram h) duration d;;
        attrs ← getattr "active_requests_count_attrs" active_requests_count_attrs;
        counter_add (active_requests_counter h) (-1) attrs
    end.

Definition run_callback (cb : Callback) : M unit :=
  match cb with
  | OnStartResource => _on_start_resource_hook
  | BeforeFinalize => _before_finalize_hook
  | OnEndResource => _on_end_resource_hook
  | AfterErrorResponse => _after_error_response_hook
  | OnEndRequest => _on_end_request_hook
  end.

(** *** [_InstrumentationHook._setup]: the tool's own entry point is
    attached by [Tool._setup], the four others with priority 100. *)
Definition _setup (h : Hook) (sv : Serving) : Serving :=
  attach "on_end_request" OnEndRequest 100
    (attach "after_error_response" AfterErrorResponse 100
      (attach "on_end_resource" OnEndResource 100
        (attach "before_finalize" BeforeFinalize 100
          (attach (_point h) OnStartResource (_priority h) sv)))).

End Hook.

(** ** Construction: [_InstrumentationHook.__init__] with keyword arguments *)

Inductive PyValue :=
| PyProvider (p : Provider)
| PyHook (f : UserHook)
| PyStr (s : string).

Abbreviation Kwargs := (gmap string PyValue).

(** [kwargs.pop(key, None)] *)
Definition pop (key : string) (kwargs : Kwargs) : option PyValue * Kwargs :=
  (kwargs !! key, delete key kwargs).

Definition as_provider (v : option PyValue) : option Provider :=
  match v with Some (PyProvider p) => Some p | _ => None end.
Definition as_hook (v : option PyValue) : option UserHook :=
  match v with Some (PyHook f) => Some f | _ => None end.
Definition as_str (v : option PyValue) : option string :=
  match v with Some (PyStr s) => Some s | _ => None end.

Section Construction.
Context `{Collaborators}.

Definition __init__ (kwargs : Kwargs) : Hook :=
  let '(tracer_provider, kwargs) := pop "tracer_provider" kwargs in
  let '(meter_provider, kwargs) := pop "metr_provider" kwargs in
  let otel_tracer := get_tracer module_name version (as_provider tracer_provider) in
  let otel_meter := get_meter module_name version (as_provider meter_provider) in
  let duration_histogram :=
    create_histogram otel_meter "http.server.duration" "ms"
      "measures the duration of the inbound HTTP request" in
  let active_requests_counter :=
    create_up_down_counter otel_meter "http.server.active_requests" "requests"
      "measures the number of concurrent HTTP requests that are currently in-flight" in
  let '(request_hook, kwargs) := pop "request_hook" kwargs in
  let '(response_hook, kwargs) := pop "response_hook" kwargs in
  let '(excluded_urls, kwargs) := pop "excluded_urls" kwargs in
  let otel_excluded_urls :=
    match as_str excluded_urls with
    | None => _excluded_urls_from_env
    | Some s => parse_excluded_urls s
    end in
  mkHook otel_tracer duration_histogram active_requests_counter
         (as_hook request_hook) (as_hook response_hook)
         otel_excluded_urls true
         "on_start_resource" _TOOL_NAME 0
         None None None None None None None.

End Construction.

(** ** Handler exposure: [cherrypy.expose] and its replacement *)

Inductive HandlerKind := FunctionType | MethodType | ClassType.

(** A handler object with the attributes that exposing and tool
    decoration set on it: [exposed], the aliases under which it is
    registered next to its own name, and [_cp_config]. *)
Record Handler := mkHandler {
  handler_name : string;
  handler_kind : HandlerKind;
  exposed : bool;
  aliases : list string;
  _cp_config : gmap string bool;
}.

(** Function objects that take part in exposing. *)
Inductive Fn :=
| CherryPyExpose                                 (* [cherrypy.expose] as shipped *)
| ExposeInner (alias : option string)            (* its closure [expose_] *)
| InstrumentedExpose (original_expose : Fn) (tool_name : string)
                                                 (* [_Instrumented_expose] *)
| InstrumentedExposeCallable (expose_callable : Fn) (tool_name : string).
                                                 (* [_Instrumented_expose_callable] *)

(** What is passed as [func]: nothing, an alias string, or a handler
    (a plain function, a bound method or a class). *)
Inductive Arg :=
| ANone
| AStr (s : string)
| AHandler (h : Handler).

(** What a call returns: the handler, or a decorator to apply to one. *)
Inductive Ret :=
| RHandler (h : Handler)
| RFn (f : Fn).

Definition TypeError (msg : string) : Exn := mkExn "TypeError" msg None.

(** [isinstance(func, (types.FunctionType, types.MethodType, type))] *)
Definition is_decoratable (func : Arg) : bool :=
  match func with AHandler _ => true | _ => false end.

Definition is_none (func : Arg) : bool :=
  match func with ANone => true | _ => false end.

(** The decorator returned by [Tool.__call__()]: it switches the tool on
    in the handler's [_cp_config]. *)
Definition tool_decorator (tool_name : string) (h : Handler) : Handler :=
  mkHandler (handler_name h) (handler_kind h) (exposed h) (aliases h)
            (<["tools." ++ tool_name ++ ".on" := true]> (_cp_config h)).

Fixpoint replace_dot (s : string) : string :=
  match s with
  | EmptyString => EmptyString
  | String c s' =>
      String (if Ascii.eqb c "."%char then "_"%char else c) (replace_dot s')
  end.

(** CherryPy's [expose_(func)]: mark the handler exposed and register it
    under the alias, if any. *)
Definition expose_ (alias : option string) (h : Handler) : Handler :=
  mkHandler (handler_name h) (handler_kind h) true
            (match alias with
             | Some a => aliases h ++ [replace_dot a]
             | None => aliases h
             end)
            (_cp_config h).

(** Calling one of the function objects with [(func, alias)]. *)
Fixpoint call (f : Fn) (func : Arg) (alias : option string) : Exn + Ret :=
  match f with
  | CherryPyExpose =>
      match func with
      | AHandler h => inr (RHandler (expose_ alias h))
      | ANone => inr (RFn (ExposeInner alias))
      | AStr a => inr (RFn (ExposeInner (Some a)))
      end
  | ExposeInner a =>
      match func with
      | AHandler h => inr (RHandler (expose_ a h))
      | _ => inl (AttributeError "exposed")
      end
  | InstrumentedExpose original_expose tool_name =>
      if is_none func || negb (is_decoratable func) then
        match call original_expose func alias with
        | inl e => inl e
        | inr expose_callable =>
            (* [_Instrumented_expose_callable] is defined at this point,
               but the function returned is [_Instrumented_expose] *)
            inr (RFn (InstrumentedExpose original_expose tool_name))
        end
      else
        match func with
        | AHandler h =>
            let func := AHandler (tool_decorator tool_name h) in
            call original_expose func alias
        | _ => inl (TypeError "not decoratable")
        end
  | InstrumentedExposeCallable expose_callable tool_name =>
      match func with
      | AHandler h =>
          call expose_callable (AHandler (tool_decorator tool_name h)) None
      | _ => inl (AttributeError "_cp_config")
      end
  end.

(** [@expose] above a handler. *)
Definition decorate (expose : Fn) (h : Handler) : Exn + Ret :=
  call expose (AHandler h) None.

(** [@expose(alias=a)] above a handler. *)
Definition decorate_alias (expose : Fn) (a : string) (h : Handler) : Exn + Ret :=
  match call expose ANone (Some a) with
  | inl e => inl e
  | inr (RFn d) => call d (AHandler h) None
  | inr (RHandler _) => inl (TypeError "object is not callable")
  end.

(** ** [CherryPyInstrumentor] *)

(** The instrumentor and the parts of the [cherrypy] module it touches.
    [otel_tool] is the one hook object: [self.otel_tool] and
    [cherrypy.tools.<_TOOL_NAME>] refer to it, and the registered
    callbacks are its bound methods. *)
Record Process := mkProcess {
  original_expose : option Fn;        (* [self.original_expose] *)
  otel_tool : option Hook;            (* [self.otel_tool] *)
  cherrypy_expose : Fn;               (* [cherrypy.expose] *)
  cherrypy_tools : list string;       (* names set on [cherrypy.tools] *)
}.

Definition fresh_process : Process := mkProcess None None CherryPyExpose [].

Section Instrumentor.
Context `{Collaborators}.

Definition _instrument (kwargs : Kwargs) (p : Process) : Process :=
  let original := cherrypy_expose p in
  let tool := __init__ kwargs in
  mkProcess (Some original) (Some tool)
            (InstrumentedExpose original (_name tool))
            (_TOOL_NAME :: cherrypy_tools p).

Definition _uninstrument (p : Process) : Exn + Process :=
  match otel_tool p with
  | None => inl (AttributeError "otel_tool")
  | Some tool =>
      inr (mkProcess (original_expose p) (Some (set_enabled false tool))
                     (cherrypy_expose p) (cherrypy_tools p))
  end.

End Instrumentor.

(** ** A concrete set of collaborators

    Used to run the callbacks on concrete requests. *)

Fixpoint split_commas (acc s : string) : list string :=
  match s with
  | EmptyString => [acc]
  | String c s' =>
      if Ascii.eqb c ","%char then acc :: split_commas "" s'
      else split_commas (acc ++ String c "") s'
  end.

Definition contains (pat s : string) : bool :=
  match String.index 0 pat s with Some _ => true | None => false end.

Definition digit_value (c : ascii) : option Z :=
  let n := Z.of_nat (nat_of_ascii c) in
  if (48 <=? n) && (n <=? 57) then Some (n - 48) else None.

Fixpoint leading_number (acc : option Z) (s : string) : option Z :=
  match s with
  | EmptyString => acc
  | String c s' =>
      match digit_value c with
      | Some d => leading_number (Some (10 * default 0 acc + d)) s'
      | None => acc
      end
  end.

Definition environ_attr (environ : Environ) (key attr : string) : Attributes :=
  match environ !! key with
  | Some v => {[ attr := VStr v ]}
  | None => ∅
  end.

Definition keep_keys (keys : list string) (attrs : Attributes) : Attributes :=
  filter (λ kv, bool_decide (kv.1 ∈ keys)) attrs.

(** Modelled from the spec: the helpers of the wsgi instrumentation, of
    the http utilities and of the span-starting utility, which this
    package imports.  The span is named "HTTP <METHOD>"; the request
    attributes are method, scheme, host, target, flavor and server name;
    the active-request subset keeps method, scheme, host, flavor and
    server name; the duration subset keeps those and the target; an
    exclusion pattern matches a path that contains it; a request without
    an ambient span gets a sampled SERVER span and a context token. *)
#[global] Instance spec_collaborators : Collaborators := {|
  version := "0.0";
  _excluded_urls_from_env := ["ping"];
  parse_excluded_urls := split_commas "";
  url_disabled := λ pats url, existsb (λ p, contains p url) pats;
  start_span_decision := λ _ _ w, (SERVER, true, Some (length (events w)));
  get_default_span_name := λ environ,
    "HTTP " ++ default "" (environ !! "REQUEST_METHOD");
  collect_request_attributes := λ environ,
    environ_attr environ "REQUEST_METHOD" "http.method"
    ∪ environ_attr environ "wsgi.url_scheme" "http.scheme"
    ∪ environ_attr environ "HTTP_HOST" "http.host"
    ∪ environ_attr environ "PATH_INFO" "http.target"
    ∪ environ_attr environ "SERVER_PROTOCOL" "http.flavor"
    ∪ environ_attr environ "SERVER_NAME" "http.server_name";
  _parse_active_request_count_attrs :=
    keep_keys ["http.method"; "http.host"; "http.scheme"; "http.flavor";
               "http.server_name"];
  _parse_duration_attrs :=
    keep_keys ["http.method"; "http.host"; "http.scheme"; "http.flavor";
               "http.server_name"; "http.target"];
  collect_custom_request_headers_attributes := λ _, ∅;
  add_response_attributes := λ s status _,
    match leading_number None status with
    | Some code => set_attribute HTTP_STATUS_CODE (VInt code) s
    | None => s
    end;
  _parse_status_code := leading_number None;
  collect_custom_response_headers_attributes := λ _, ∅;
  get_global_response_propagator := None;
|}.

Definition request_environ (method path : string) : Environ :=
  {[ "REQUEST_METHOD" := method; "PATH_INFO" := path;
     "wsgi.url_scheme" := "http"; "HTTP_HOST" := "127.0.0.1:54583";
     "SERVER_PROTOCOL" := "1.1"; "SERVER_NAME" := "127.0.0.1" ]}.

Definition mk_serving (environ : Environ) (status : string)
    (exc : option Exn) (clock : Z) (timer : float) : Serving :=
  mkServing environ status ∅ [] exc clock timer.

(** Run a callback for one request on the shared hook and world. *)
Definition invoke `{Collaborators} (cb : Callback) (sv : Serving)
    (hw : Hook * World) : Result unit * (Hook * World) :=
  let '(r, st) := run_callback cb (mkSt hw.1 sv hw.2) in
  (r, (st_hook st, st_world st)).

(** Run a sequence of callback invocations, each with the serving data
    of the request it belongs to; stop at the first exception. *)
Fixpoint invoke_all `{Collaborators} (steps : list (Callback * Serving))
    (hw : Hook * World) : Result unit * (Hook * World) :=
  match steps with
  | [] => (Returned tt, hw)
  | (cb, sv) :: rest =>
      match invoke cb sv hw with
      | (Returned _, hw') => invoke_all rest hw'
      | (Raised e, hw') => (Raised e, hw')
      end
  end.

(** ** Specification vocabulary *)

Section Vocabulary.
Context `{Collaborators}.

(** A callback invocation is eligible when the request path is not
    excluded and the hook is enabled. *)
Definition eligible (h : Hook) (sv : Serving) : Prop :=
  url_disabled (_otel_excluded_urls h) (path_info (wsgi_environ sv)) = false
  ∧ _is_instrumented_by_opentelemetry h = true.

Definition excluded (h : Hook) (sv : Serving) : Prop :=
  url_disabled (_otel_excluded_urls h) (path_info (wsgi_environ sv)) = true.

(** The attributes assigned by [__init__], as opposed to the record
    fields assigned by the callbacks. *)
Definition tool_attrs (h : Hook) :=
  (_otel_tracer h, duration_histogram h, active_requests_counter h,
   request_hook h, response_hook h, _otel_excluded_urls h,
   _is_instrumented_by_opentelemetry h, _point h, _name h, _priority h).

Definition record_attrs (h : Hook) :=
  (span h, token h, active_requests_count_attrs h, duration_attrs h,
   activation h, start h, exception h).

(** The span object as [tracer.start_span] creates it. *)
Definition new_span (h : Hook) (sv : Serving) (w : World) : Span :=
  let d := start_span_decision (_otel_tracer h) (wsgi_environ sv) w in
  mkSpan (get_default_span_name (wsgi_environ sv)) d.1.1 (time_ns sv) d.1.2
         ∅ (mkStatus UNSET None) [] false.

Definition new_token (h : Hook) (sv : Serving) (w : World) : option nat :=
  (start_span_decision (_otel_tracer h) (wsgi_environ sv) w).2.

(** The user's request hook, if any, returns on the new span. *)
Definition request_hook_returns (h : Hook) (sv : Serving) (w : World) : Prop :=
  match request_hook h with
  | None => True
  | Some f => ∃ s', f (new_span h sv w) (wsgi_environ sv) = inr s'
  end.

Definition after_request_hook (h : Hook) (sv : Serving) (w : World) : Span :=
  match request_hook h with
  | Some f =>
      match f (new_span h sv w) (wsgi_environ sv) with
      | inr s' => s'
      | inl _ => new_span h sv w
      end
  | None => new_span h sv w
  end.

(** The attribute block of the start callback, as a function on the span. *)
Definition annotate_request (environ : Environ) (s : Span) : Span :=
  if is_recording s then
    let s1 := map_fold (λ key value acc, set_attribute key value acc) s
                (collect_request_attributes environ) in
    if is_recording s1 && bool_decide (span_kind s1 = SERVER) then
      if bool_decide (0 < size (collect_custom_request_headers_attributes environ))%nat
      then set_attributes (collect_custom_request_headers_attributes environ) s1
      else s1
    else s1
  else s.

Definition active_attrs_of (sv : Serving) : Attributes :=
  _parse_active_request_count_attrs (collect_request_attributes (wsgi_environ sv)).

Definition duration_attrs_of (sv : Serving) : Attributes :=
  _parse_duration_attrs (collect_request_attributes (wsgi_environ sv)).

(** Hook and world after an eligible start callback. *)
Definition started_hook (h : Hook) (sv : Serving) (w : World) : Hook :=
  mkHook (_otel_tracer h) (duration_histogram h) (active_requests_counter h)
    (request_hook h) (response_hook h) (_otel_excluded_urls h)
    (_is_instrumented_by_opentelemetry h) (_point h) (_name h) (_priority h)
    (Some (next_span w)) (Some (new_token h sv w))
    (Some (active_attrs_of sv)) (Some (duration_attrs_of sv))
    (Some (mkActivation (next_span w) true false))
    (Some (default_timer sv)) (Some None).

Definition started_world (h : Hook) (sv : Serving) (w : World) : World :=
  mkWorld
    (<[next_span w :=
         annotate_request (wsgi_environ sv) (after_request_hook h sv w)]>
       (spans w))
    (S (next_span w))
    (events w ++ [EvStartSpan (next_span w);
                  EvCounterAdd (active_requests_counter h) 1 (active_attrs_of sv);
                  EvUseSpanEnter (next_span w)]).

(** The effect of [activation.__exit__] on the span it closes. *)
Definition exit_status (args : ExitArgs) (s : Span) : Span :=
  match args with
  | Some (ty, e, _) =>
      set_status (mkStatus ERROR (Some (ty ++ ": " ++ exn_msg e)))
                 (record_exception e s)
  | None => s
  end.

Definition exit_args_of (exc : option Exn) : ExitArgs :=
  match exc with
  | None => None
  | Some e => Some (exn_type e, e, exn_traceback e)
  end.

(** Events of the end callback on a live activation of span [id], whose
    state before the call is [s]. *)
Definition end_events (h : Hook) (id : nat) (s : Span)
    (exc : option Exn) (tok : option nat) (duration : Z)
    (d attrs : Attributes) : list Event :=
  ([EvUseSpanExit id (exit_args_of exc)]
   ++ (if span_ended s then [] else [EvSpanEnd id])
   ++ match tok with Some t => [EvContextDetach t] | None => [] end
   ++ [EvHistogramRecord (duration_histogram h) duration d;
       EvCounterAdd (active_requests_counter h) (-1) attrs])%list.

(** World after that end callback. *)
Definition ended_world (h : Hook) (w : World) (id : nat) (s : Span)
    (exc : option Exn) (tok : option nat) (duration : Z)
    (d attrs : Attributes) : World :=
  mkWorld
    (<[id := end_span (exit_status (exit_args_of exc) s)]> (spans w))
    (next_span w)
    (events w ++ end_events h id s exc tok duration d attrs).

(** The callbacks that the framework runs between the start and the end
    of one request, each with the serving data of that request. *)
Definition is_middle (cb : Callback) : bool :=
  match cb with
  | BeforeFinalize | OnEndResource | AfterErrorResponse => true
  | OnStartResource | OnEndRequest => false
  end.

Definition middle_steps (environ : Environ) (steps : list (Callback * Serving)) : Prop :=
  Forall (λ step, is_middle step.1 = true ∧ wsgi_environ step.2 = environ) steps.

(** The exception held in [self.exception] after the given steps. *)
Fixpoint captured (steps : list (Callback * Serving)) (exc : option Exn) : option Exn :=
  match steps with
  | [] => exc
  | (AfterErrorResponse, sv) :: rest => captured rest (exc_info sv)
  | _ :: rest => captured rest exc
  end.

(** [h] differs from [h0] at most in [duration_attrs] and [exception]. *)
Definition same_request (h0 h : Hook) : Prop :=
  tool_attrs h = tool_attrs h0
  ∧ span h = span h0 ∧ token h = token h0
  ∧ active_requests_count_attrs h = active_requests_count_attrs h0
  ∧ activation h = activation h0 ∧ start h = start h0.

End Vocabulary.

(** ** Concrete requests *)

(** The hook as [CherryPyInstrumentor().instrument()] builds it. *)
Definition hook0 : Hook := __init__ ∅.

Definition env_get_hello : Environ := request_environ "GET" "/hello".
Definition env_get_ping : Environ := request_environ "GET" "/ping".

Definition handler_error : Exn := mkExn "ValueError" "boom" (Some 7%nat).

Definition get_start : Serving := mk_serving env_get_hello "" None 100 1.0%float.
Definition get_ready : Serving := mk_serving env_get_hello "200 OK" None 100 1.125%float.
Definition get_failed : Serving :=
  mk_serving env_get_hello "500 Internal Server Error" (Some handler_error)
             100 1.1875%float.
Definition get_end : Serving := mk_serving env_get_hello "200 OK" None 100 1.25%float.
Definition ping_start : Serving := mk_serving env_get_ping "" None 300 2.0%float.

(** A process after [_instrument] with default arguments. *)
Definition process0 : Process := _instrument ∅ fresh_process.

Definition hello : Handler := mkHandler "hello" FunctionType false [] ∅.




(** ** Vocabulary of the further properties *)

(** The keys that the constructor pops from its keyword arguments. *)
Definition recognised_keys : list string :=
  ["tracer_provider"; "metr_provider"; "request_hook"; "response_hook";
   "excluded_urls"].

(** What a callback may do to the state it runs in: the attributes set by
    the constructor stay, the event log only grows at its end, span ids
    are only handed out upwards, no span object disappears, and of the
    serving data only the response headers may change. *)
Definition grows (st st' : St) : Prop :=
  tool_attrs (st_hook st') = tool_attrs (st_hook st)
  ∧ events (st_world st) `prefix_of` events (st_world st')
  ∧ (next_span (st_world st) ≤ next_span (st_world st'))%nat
  ∧ dom (spans (st_world st)) ⊆ dom (spans (st_world st'))
  ∧ set_response_headers (response_headers (st_serving st)) (st_serving st')
    = st_serving st.

Definition respects {A} (R : St → St → Prop) (m : M A) : Prop :=
  ∀ st, R st (m st).2.

Section ResponseVocabulary.
Context `{Collaborators}.

(** The response-ready callback as a function on the span. *)
Definition annotate_response (sv : Serving) (s : Span) : Span :=
  let s1 := add_response_attributes s (response_status sv) (response_headers sv) in
  if is_recording s1 && bool_decide (span_kind s1 = SERVER) then
    if bool_decide
         (0 < size (collect_custom_response_headers_attributes
                      (response_headers sv)))%nat
    then set_attributes
           (collect_custom_response_headers_attributes (response_headers sv)) s1
    else s1
  else s1.

(** [self.duration_attrs] after the response-ready callback. *)
Definition merged_duration_attrs (sv : Serving) (d : Attributes) : Attributes :=
  match _parse_status_code (response_status sv) with
  | Some code => <[HTTP_STATUS_CODE := VInt code]> d
  | None => d
  end.

End ResponseVocabulary.

(** A request hook that raises, and the hook built with it. *)
Definition raising_hook : UserHook := λ _ _, inl handler_error.

Definition hook_raising : Hook :=
  __init__ {[ "request_hook" := PyHook raising_hook ]}.

Definition get_end_again : Serving :=
  mk_serving env_get_hello "200 OK" None 100 1.5%float.


(** * Properties *)

(** ** Rounding of timer differences *)

Example py_round_half_down : py_round 0.5%float = inr 0.
Proof. vm_compute. reflexivity. Qed.
Example py_round_half_up : py_round 1.5%float = inr 2.
Proof. vm_compute. reflexivity. Qed.
Example py_round_negative : py_round (-2.5)%float = inr (-2).
Proof. vm_compute. reflexivity. Qed.
Example py_round_infinity : py_round infinity = inl OverflowError.
Proof. vm_compute. reflexivity. Qed.
Example elapsed_ms_example : elapsed_ms 12.25%float 12.0%float = inr 250.
Proof. vm_compute. reflexivity. Qed.


Ltac mrun :=
  repeat (unfold mbind, M_bind, mret, M_ret, raise, self, serving, world,
            modify_hook, modify_serving, modify_world, getattr, read_span,
            counter_add, histogram_record, context_detach, activation_enter,
            use_span;
          cbn beta iota zeta delta
            [st_hook st_serving st_world fst snd negb andb
             _otel_tracer duration_histogram active_requests_counter
             request_hook response_hook _otel_excluded_urls
             _is_instrumented_by_opentelemetry _point _name _priority
             span token active_requests_count_attrs duration_attrs
             activation start exception
             set_enabled set_span_token set_active_requests_count_attrs
             set_duration_attrs set_activation set_start set_exception
             act_span act_end_on_exit act_finished
             spans next_span events emit update_span]).

Section Proofs.
Context `{Collaborators}.

Lemma excluded_noop cb h sv w :
  excluded h sv →
  run_callback cb (mkSt h sv w) = (Returned tt, mkSt h sv w).
Proof.
  unfold excluded. intros Hx.
  destruct cb; unfold run_callback, _on_start_resource_hook,
    _before_finalize_hook, _on_end_resource_hook,
    _after_error_response_hook, _on_end_request_hook;
    mrun; rewrite Hx; reflexivity.
Qed.

Lemma disabled_noop cb h sv w :
  _is_instrumented_by_opentelemetry h = false →
  run_callback cb (mkSt h sv w) = (Returned tt, mkSt h sv w).
Proof.
  intros Hd.
  destruct cb; unfold run_callback, _on_start_resource_hook,
    _before_finalize_hook, _on_end_resource_hook,
    _after_error_response_hook, _on_end_request_hook;
    mrun; rewrite Hd;
    destruct (url_disabled _ _); reflexivity.
Qed.

Ltac mheap :=
  mrun; repeat (progress (rewrite ?alter_insert_eq, ?lookup_insert_eq); mrun).

Lemma hook_ext (h1 h2 : Hook) :
  tool_attrs h1 = tool_attrs h2 →
  record_attrs h1 = record_attrs h2 →
  h1 = h2.
Proof.
  destruct h1, h2; unfold tool_attrs, record_attrs; cbn.
  intros [= -> -> -> -> -> -> -> -> -> ->] [= -> -> -> -> -> -> ->].
  reflexivity.
Qed.

Lemma st_eq {A} (r : Result A) h1 h2 sv w1 w2 :
  h1 = h2 → w1 = w2 → (r, mkSt h1 sv w1) = (r, mkSt h2 sv w2).
Proof. intros -> ->. reflexivity. Qed.

Ltac mdone :=
  apply st_eq;
  [ apply hook_ext; unfold tool_attrs, record_attrs; mrun;
    repeat match goal with
           | E : request_hook ?h = _ |- context [request_hook ?h] => rewrite E
           end;
    reflexivity
  | unfold emit, update_span; mrun;
    rewrite ?alter_insert_eq, <- ?app_assoc; reflexivity ].

Lemma on_start_spec h sv w :
  eligible h sv →
  request_hook_returns h sv w →
  run_callback OnStartResource (mkSt h sv w)
  = (Returned tt, mkSt (started_hook h sv w) sv (started_world h sv w)).
Proof.
  intros [Hx He] Hr.
  unfold run_callback, _on_start_resource_hook. mrun. rewrite Hx, He. mrun.
  unfold _start_internal_or_server_span. mrun.
  unfold started_hook, started_world, new_token, after_request_hook,
    active_attrs_of, duration_attrs_of, annotate_request.
  unfold request_hook_returns in Hr. unfold new_span in *.
  destruct (start_span_decision _ _ _) as [[kind sampled] tok].
  cbn [fst snd] in *.
  set (s0 := mkSpan _ _ _ _ _ _ _ _) in *.
  set (attributes := collect_request_attributes _).
  set (custom := collect_custom_request_headers_attributes _).
  destruct (request_hook h) as [f|] eqn:Hrh.
  - destruct Hr as [s' Hs']. unfold call_user_hook. mheap.
    rewrite Hs'. mheap.
    destruct (is_recording s') eqn:Hrec; mheap.
    + destruct (is_recording _ && bool_decide _) eqn:Hsrv; mheap.
      * destruct (bool_decide (0 < size custom)%nat) eqn:Hsz; mheap; mdone.
      * mdone.
    + mdone.
  - mheap.
    destruct (is_recording s0) eqn:Hrec; mheap.
    + destruct (is_recording _ && bool_decide _) eqn:Hsrv; mheap.
      * destruct (bool_decide (0 < size custom)%nat) eqn:Hsz; mheap; mdone.
      * mdone.
    + mdone.
Qed.

Lemma exit_status_ended args s :
  span_ended (exit_status args s) = span_ended s.
Proof.
  destruct args as [[[ty e] tb]|]; [|reflexivity].
  unfold exit_status, set_status, record_exception.
  destruct (is_recording s) eqn:Hr; cbn [span_ended]; [|rewrite Hr; reflexivity].
  destruct (is_recording _); [|reflexivity].
  cbn [span_status status_code]. destruct (status_code _); reflexivity.
Qed.

Lemma end_span_ended s : span_ended s = true → end_span s = s.
Proof. destruct s; cbn; intros ->; reflexivity. Qed.

Lemma is_recording_ended s : span_ended s = true → is_recording s = false.
Proof. unfold is_recording. intros ->. apply andb_false_r. Qed.

Lemma exit_status_not_recording args s :
  is_recording s = false → exit_status args s = s.
Proof.
  intros Hr. destruct args as [[[ty e] tb]|]; [|reflexivity].
  unfold exit_status, set_status, record_exception. rewrite Hr, Hr. reflexivity.
Qed.

Lemma activation_exit_spec h sv w id s args :
  spans w !! id = Some s →
  activation_exit (mkActivation id true false) args (mkSt h sv w)
  = (Returned tt,
     mkSt (set_activation (mkActivation id true true) h) sv
       (mkWorld (<[id := end_span (exit_status args s)]> (spans w))
          (next_span w)
          (events w ++ [EvUseSpanExit id args]
           ++ (if span_ended s then [] else [EvSpanEnd id])))).
Proof.
  intros Hs. unfold activation_exit. mrun.
  assert (Hw : spans w = <[id := s]> (spans w)) by (symmetry; apply insert_id, Hs).
  destruct (span_ended s) eqn:Hend.
  - rewrite exit_status_not_recording by (apply is_recording_ended, Hend).
    rewrite end_span_ended by exact Hend.
    destruct args as [[[ty e] tb]|]; mrun.
    + rewrite lookup_alter_eq, Hs. cbn [fmap option_fmap option_map].
      fold (exit_status (Some (ty, e, tb)) s).
      rewrite exit_status_not_recording by (apply is_recording_ended, Hend).
      rewrite Hend. mrun. apply st_eq; [reflexivity|].
      unfold emit, update_span; mrun. f_equal.
      rewrite Hw at 1. rewrite alter_insert_eq.
      fold (exit_status (Some (ty, e, tb)) s).
      rewrite exit_status_not_recording by (apply is_recording_ended, Hend).
      reflexivity.
    + rewrite Hs. mrun. rewrite Hend. mrun. apply st_eq; [reflexivity|].
      unfold emit; mrun. f_equal. rewrite insert_id; done.
  - destruct args as [[[ty e] tb]|]; mrun.
    + rewrite lookup_alter_eq, Hs. cbn [fmap option_fmap option_map].
      fold (exit_status (Some (ty, e, tb)) s).
      rewrite exit_status_ended, Hend. mrun. apply st_eq; [reflexivity|].
      unfold emit, update_span; mrun. f_equal.
      * rewrite Hw at 1. rewrite !alter_insert_eq. reflexivity.
      * rewrite <- app_assoc. reflexivity.
    + rewrite Hs. mrun. rewrite Hend. mrun. apply st_eq; [reflexivity|].
      unfold emit, update_span; mrun. f_equal.
      * rewrite Hw at 1. rewrite alter_insert_eq. reflexivity.
      * rewrite <- app_assoc. reflexivity.
Qed.

Lemma on_end_spec h sv w exc tok t0 d attrs id s n :
  eligible h sv →
  exception h = Some exc →
  activation h = Some (mkActivation id true false) →
  token h = Some tok →
  start h = Some t0 →
  duration_attrs h = Some d →
  active_requests_count_attrs h = Some attrs →
  spans w !! id = Some s →
  elapsed_ms (default_timer sv) t0 = inr n →
  run_callback OnEndRequest (mkSt h sv w)
  = (Returned tt,
     mkSt (set_activation (mkActivation id true true) h) sv
          (ended_world h w id s exc tok (Z.max n 0) d attrs)).
Proof.
  intros [Hx He] Hexc Hact Htok Hst Hd Ha Hs Hn.
  unfold run_callback, _on_end_request_hook. mrun. rewrite Hx, He. mrun.
  rewrite Hexc. mrun. rewrite Hact. mrun.
  assert (Hex :
    match exc with
    | Some e => activation_exit (mkActivation id true false)
                  (Some (exn_type e, e, exn_traceback e))
    | None => activation_exit (mkActivation id true false) None
    end (mkSt h sv w)
    = activation_exit (mkActivation id true false) (exit_args_of exc) (mkSt h sv w))
    by (destruct exc; reflexivity).
  rewrite Hex, (activation_exit_spec h sv w id s _ Hs). mrun.
  rewrite Htok. mrun. unfold duration_ms. 
  destruct tok as [t|]; mrun; rewrite Hst; mrun; rewrite Hn; mrun;
    rewrite Hd; mrun; rewrite Ha; mrun;
    (apply st_eq; [reflexivity|]); unfold ended_world, end_events, emit; mrun;
    rewrite <- ?app_assoc; reflexivity.
Qed.

(** The callbacks between start and end, on a request in flight. *)
Lemma before_finalize_spec h sv w :
  ∃ sv', run_callback BeforeFinalize (mkSt h sv w) = (Returned tt, mkSt h sv' w).
Proof.
  unfold run_callback, _before_finalize_hook. mrun.
  destruct (url_disabled _ _); [eauto|].
  destruct (negb _); [eauto|].
  destruct get_global_response_propagator; mrun; eauto.
Qed.

Lemma after_error_response_spec h sv w :
  eligible h sv →
  run_callback AfterErrorResponse (mkSt h sv w)
  = (Returned tt, mkSt (set_exception (exc_info sv) h) sv w).
Proof.
  intros [Hx He].
  unfold run_callback, _after_error_response_hook. mrun.
  rewrite Hx, He. reflexivity.
Qed.

Lemma on_end_resource_spec h sv w id d :
  eligible h sv →
  span h = Some id →
  duration_attrs h = Some d →
  is_Some (spans w !! id) →
  ∃ d' w',
    run_callback OnEndResource (mkSt h sv w)
    = (Returned tt, mkSt (set_duration_attrs d' h) sv w')
    ∧ events w' = events w ∧ next_span w' = next_span w
    ∧ is_Some (spans w' !! id)
    ∧ (∀ j, j ≠ id → spans w' !! j = spans w !! j).
Proof.
  intros [Hx He] Hsp Hd [s Hs].
  unfold run_callback, _on_end_resource_hook. mrun. rewrite Hx, He. mrun.
  rewrite Hsp. mrun.
  set (s1 := add_response_attributes s (response_status sv) (response_headers sv)).
  assert (Hl : alter (λ s, add_response_attributes s (response_status sv)
                  (response_headers sv)) id (spans w) !! id = Some s1)
    by (rewrite lookup_alter_eq, Hs; reflexivity).
  destruct (_parse_status_code (response_status sv)) as [code|]; mrun.
  - rewrite Hd. mrun. rewrite Hl. mrun.
    exists (<[HTTP_STATUS_CODE := VInt code]> d).
    destruct (is_recording s1 && _); [destruct (bool_decide _)|]; mrun;
      eexists; (split; [apply st_eq; [apply hook_ext; unfold tool_attrs, record_attrs; mrun; reflexivity|reflexivity]|]);
      unfold emit, update_span; mrun;
      (split; [reflexivity|]); (split; [reflexivity|]);
      (split; [rewrite ?lookup_alter_eq, Hs; eauto|]);
      intros j Hj; rewrite ?lookup_alter_ne by done; reflexivity.
  - rewrite Hl. mrun. exists d.
    destruct (is_recording s1 && _); [destruct (bool_decide _)|]; mrun;
      eexists; (split; [apply st_eq; [apply hook_ext; unfold tool_attrs, record_attrs; mrun; rewrite ?Hd; reflexivity|reflexivity]|]);
      unfold emit, update_span; mrun;
      (split; [reflexivity|]); (split; [reflexivity|]);
      (split; [rewrite ?lookup_alter_eq, Hs; eauto|]);
      intros j Hj; rewrite ?lookup_alter_ne by done; reflexivity.
Qed.

Lemma eligible_tool_attrs h h' sv sv' :
  tool_attrs h' = tool_attrs h →
  wsgi_environ sv' = wsgi_environ sv →
  eligible h sv → eligible h' sv'.
Proof.
  unfold tool_attrs, eligible. intros [= _ _ _ _ _ Hu Hf _ _ _] Hw.
  rewrite Hu, Hf, Hw. done.
Qed.

Lemma invoke_eq cb sv h w r h' sv' w' :
  run_callback cb (mkSt h sv w) = (r, mkSt h' sv' w') →
  invoke cb sv (h, w) = (r, (h', w')).
Proof. unfold invoke. cbn [fst snd]. intros ->. reflexivity. Qed.

Lemma same_request_refl h : same_request h h.
Proof. repeat split. Qed.

Lemma same_request_trans h0 h1 h2 :
  same_request h0 h1 → same_request h1 h2 → same_request h0 h2.
Proof.
  unfold same_request. intros (?&?&?&?&?&?) (?&?&?&?&?&?).
  repeat split; congruence.
Qed.


Lemma invoke_all_app steps1 steps2 hw :
  invoke_all (steps1 ++ steps2) hw
  = match invoke_all steps1 hw with
    | (Returned _, hw') => invoke_all steps2 hw'
    | (Raised e, hw') => (Raised e, hw')
    end.
Proof.
  revert hw. induction steps1 as [|[cb sv] steps1 IH]; intros hw; cbn [invoke_all app].
  - reflexivity.
  - destruct (invoke cb sv hw) as [[[]|e] hw']; [apply IH|reflexivity].
Qed.

Lemma counter_adds_app l1 l2 :
  counter_adds (l1 ++ l2) = (counter_adds l1 ++ counter_adds l2)%list.
Proof. apply omap_app. Qed.

Lemma histogram_records_app l1 l2 :
  histogram_records (l1 ++ l2) = (histogram_records l1 ++ histogram_records l2)%list.
Proof. apply omap_app. Qed.



End Proofs.

(** * The claims *)

Section Claims.
Context `{Collaborators}.



(** C7. For a request whose path matches the exclusion policy each of
    the five callbacks returns with the hook, the serving data and the
    world unchanged: no record field is set, no span is created or
    ended, no metric call is made; the same holds for any sequence of
    callbacks of such requests. *)
Theorem excluded_request_untouched h w sv :
  excluded h sv →
  (∀ cb, run_callback cb (mkSt h sv w) = (Returned tt, mkSt h sv w))
  ∧ (∀ steps,
       Forall (λ step, wsgi_environ step.2 = wsgi_environ sv) steps →
       invoke_all steps (h, w) = (Returned tt, (h, w))).
Proof.
  intros Hx. split.
  - intros cb. apply excluded_noop, Hx.
  - intros steps. induction steps as [|[cb sv1] steps IH]; intros Hall.
    + reflexivity.
    + apply Forall_cons in Hall as [Henv Hall]. cbn [snd] in Henv.
      assert (Hx1 : excluded h sv1) by (unfold excluded in *; rewrite Henv; exact Hx).
      cbn [invoke_all].
      rewrite (invoke_eq _ _ _ _ _ _ _ _ (excluded_noop cb h sv1 w Hx1)).
      apply IH, Hall.
Qed.

(** C9. Once [_uninstrument] has set the enabled flag to false, every
    callback invoked for any request returns at once with hook, serving
    data and world unchanged, so no span and no metric event is
    produced; [_uninstrument] changes nothing but the flag: the
    replaced [cherrypy.expose], the registered tool and the record
    fields of the hook stay as they were. *)
Theorem uninstrument_disables_callbacks p tool :
  otel_tool p = Some tool →
  ∃ p' tool',
    _uninstrument p = inr p'
    ∧ otel_tool p' = Some tool'
    ∧ _is_instrumented_by_opentelemetry tool' = false
    ∧ record_attrs tool' = record_attrs tool
    ∧ cherrypy_expose p' = cherrypy_expose p
    ∧ cherrypy_tools p' = cherrypy_tools p
    ∧ original_expose p' = original_expose p
    ∧ (∀ cb sv w,
         run_callback cb (mkSt tool' sv w) = (Returned tt, mkSt tool' sv w))
    ∧ (∀ steps w, invoke_all steps (tool', w) = (Returned tt, (tool', w))).
Proof.
  intros Ht. unfold _uninstrument. rewrite Ht.
  eexists _, (set_enabled false tool).
  repeat split.
  - intros cb sv w. apply disabled_noop. reflexivity.
  - intros steps w. induction steps as [|[cb sv] steps IH]; [reflexivity|].
    cbn [invoke_all].
    rewrite (invoke_eq _ _ _ _ _ _ _ _
               (disabled_noop cb (set_enabled false tool) sv w eq_refl)).
    exact IH.
Qed.




End Claims.

(** * The claims on concrete requests *)

(** A GET that succeeds, as in the test of the successful request: one
    span named "HTTP GET", ended, status UNSET without description. *)
Example get_hello_span :
  let r := invoke_all [(OnStartResource, get_start); (BeforeFinalize, get_ready);
                       (OnEndResource, get_ready); (OnEndRequest, get_end)]
                      (hook0, empty_world) in
  r.1 = Returned tt
  ∧ (λ s, (span_name s, span_status s, span_ended s,
           span_attributes s !! HTTP_STATUS_CODE)) <$> spans r.2.2 !! 0%nat
    = Some ("HTTP GET", mkStatus UNSET None, true, Some (VInt 200)).
Proof. vm_compute. split; reflexivity. Qed.

(** A GET whose handler raises: the span is closed in status ERROR. *)
Example get_failed_span :
  let r := invoke_all [(OnStartResource, get_start); (BeforeFinalize, get_failed);
                       (OnEndResource, get_failed);
                       (AfterErrorResponse, get_failed); (OnEndRequest, get_end)]
                      (hook0, empty_world) in
  r.1 = Returned tt
  ∧ (λ s, (status_code (span_status s), span_ended s, span_exceptions s))
      <$> spans r.2.2 !! 0%nat
    = Some (ERROR, true, [handler_error]).
Proof. vm_compute. split; reflexivity. Qed.

(** An excluded path leaves no trace. *)
Example ping_excluded :
  invoke_all [(OnStartResource, ping_start); (OnEndRequest, ping_start)]
             (hook0, empty_world)
  = (Returned tt, (hook0, empty_world)).
Proof. vm_compute. reflexivity. Qed.



Lemma excluded_request_untouched_witness :
  (∀ cb, run_callback cb (mkSt hook0 ping_start empty_world)
         = (Returned tt, mkSt hook0 ping_start empty_world))
  ∧ (∀ steps,
       Forall (λ step, wsgi_environ step.2 = wsgi_environ ping_start) steps →
       invoke_all steps (hook0, empty_world)
       = (Returned tt, (hook0, empty_world))).
Proof.
  apply (excluded_request_untouched hook0 empty_world ping_start).
  vm_compute. reflexivity.
Defined.


Lemma uninstrument_disables_callbacks_witness :
  ∃ p' tool',
    _uninstrument process0 = inr p'
    ∧ otel_tool p' = Some tool'
    ∧ _is_instrumented_by_opentelemetry tool' = false
    ∧ record_attrs tool' = record_attrs hook0
    ∧ cherrypy_expose p' = cherrypy_expose process0
    ∧ cherrypy_tools p' = cherrypy_tools process0
    ∧ original_expose p' = original_expose process0
    ∧ (∀ cb sv w,
         run_callback cb (mkSt tool' sv w) = (Returned tt, mkSt tool' sv w))
    ∧ (∀ steps w, invoke_all steps (tool', w) = (Returned tt, (tool', w))).
Proof.
  apply (uninstrument_disables_callbacks process0 hook0).
  reflexivity.
Defined.



(** ** Two requests on one hook *)


(** ** Construction *)

(** C3, at the failing input.  A provider passed as [meter_provider] is
    not used: the constructor pops the key "metr_provider", so both
    instruments come from a meter of the global provider.  (Name, unit
    and the default to the global provider are as the claim says.) *)
Theorem meter_provider_kwarg_ignored `{Collaborators} (p : Provider) :
  let h := __init__ {[ "meter_provider" := PyProvider p ]} in
  duration_histogram h
  = mkInstrument Histogram "http.server.duration" "ms"
      "measures the duration of the inbound HTTP request"
      (mkMeter module_name version GlobalProvider)
  ∧ active_requests_counter h
    = mkInstrument UpDownCounter "http.server.active_requests" "requests"
        "measures the number of concurrent HTTP requests that are currently in-flight"
        (mkMeter module_name version GlobalProvider)
  ∧ tracer_provider
      (_otel_tracer (__init__ {[ "tracer_provider" := PyProvider p ]})) = p.
Proof. cbv zeta. repeat split. Qed.

(** What the claim asks for holds only under the misspelt key. *)
Example meter_provider_under_misspelt_key :
  meter_provider (inst_meter (duration_histogram
    (__init__ {[ "metr_provider" := PyProvider (SuppliedProvider "sdk") ]})))
  = SuppliedProvider "sdk".
Proof. reflexivity. Qed.

(** ** Exposing handlers *)

(** The direct form [expose(handler)] decorates the handler with the
    tool and exposes it as the original [expose] does. *)
Lemma instrumented_expose_direct original tool_name h :
  decorate (InstrumentedExpose original tool_name) h
  = decorate original (tool_decorator tool_name h).
Proof. reflexivity. Qed.

(** C4, at the failing input.  In the parameterized form
    [expose(alias="greet")] the replacement returns itself instead of the
    wrapper around the original's decorator, so the handler is decorated
    and exposed but the alias is lost; the original [expose] applied to
    the decorated handler registers the alias. *)
Theorem instrumented_expose_drops_alias :
  decorate_alias (cherrypy_expose process0) "greet" hello
  = inr (RHandler (mkHandler "hello" FunctionType true []
                     {[ "tools.opentelemetry-cherrypy-tool.on" := true ]}))
  ∧ decorate_alias CherryPyExpose "greet" (tool_decorator _TOOL_NAME hello)
    = inr (RHandler (mkHandler "hello" FunctionType true ["greet"]
                       {[ "tools.opentelemetry-cherrypy-tool.on" := true ]}))
  ∧ call (cherrypy_expose process0) ANone (Some "greet")
    = inr (RFn (cherrypy_expose process0)).
Proof. vm_compute. repeat split. Qed.

(** ** Callbacks without a start *)

(** C8, at the failing input.  On a hook whose start callback has never
    run, the response-ready callback raises AttributeError on [self.span]
    and the end callback raises AttributeError on [self.exception]; only
    the before-finalize and error callbacks return. *)
Theorem later_callbacks_without_start :
  (invoke OnEndResource get_ready (hook0, empty_world)).1
  = Raised (AttributeError "span")
  ∧ (invoke OnEndRequest get_end (hook0, empty_world)).1
    = Raised (AttributeError "exception")
  ∧ (invoke BeforeFinalize get_ready (hook0, empty_world)).1 = Returned tt
  ∧ (invoke AfterErrorResponse get_failed (hook0, empty_world)).1 = Returned tt.
Proof. vm_compute. repeat split. Qed.

(** The same for every hook on which the record fields are not set. *)
Lemma unset_record_raises `{Collaborators} h sv w :
  eligible h sv →
  span h = None →
  exception h = None →
  run_callback OnEndResource (mkSt h sv w)
  = (Raised (AttributeError "span"), mkSt h sv w)
  ∧ run_callback OnEndRequest (mkSt h sv w)
    = (Raised (AttributeError "exception"), mkSt h sv w).
Proof.
  intros [Hx He] Hs Hexc. split.
  - unfold run_callback, _on_end_resource_hook. mrun. rewrite Hx, He. mrun.
    rewrite Hs. reflexivity.
  - unfold run_callback, _on_end_request_hook. mrun. rewrite Hx, He. mrun.
    rewrite Hexc. reflexivity.
Qed.

(** * Further properties of the code *)

Ltac mheap :=
  mrun; repeat (progress (rewrite ?alter_insert_eq, ?lookup_insert_eq); mrun).

Section More.
Context `{Collaborators}.

(** The successive [kwargs.pop] calls of the constructor do not disturb
    each other: every option is read from the original keyword
    arguments. *)
Lemma init_reads_original_kwargs (kwargs : Kwargs) :
  __init__ kwargs
  = mkHook
      (get_tracer module_name version (as_provider (kwargs !! "tracer_provider")))
      (create_histogram
         (get_meter module_name version (as_provider (kwargs !! "metr_provider")))
         "http.server.duration" "ms"
         "measures the duration of the inbound HTTP request")
      (create_up_down_counter
         (get_meter module_name version (as_provider (kwargs !! "metr_provider")))
         "http.server.active_requests" "requests"
         "measures the number of concurrent HTTP requests that are currently in-flight")
      (as_hook (kwargs !! "request_hook"))
      (as_hook (kwargs !! "response_hook"))
      (match as_str (kwargs !! "excluded_urls") with
       | None => _excluded_urls_from_env
       | Some s => parse_excluded_urls s
       end)
      true "on_start_resource" _TOOL_NAME 0
      None None None None None None None.
Proof.
  unfold __init__, pop.
  rewrite !lookup_delete_ne by done. reflexivity.
Qed.

(** X1. The constructor reads exactly five keys of its keyword
    arguments; any other key, "meter_provider" included, is accepted
    and has no effect on the hook that is built. *)
Theorem init_ignores_other_keys (kwargs : Kwargs) (k : string) (v : PyValue) :
  k ∉ recognised_keys →
  __init__ (<[k := v]> kwargs) = __init__ kwargs.
Proof.
  intros Hk. rewrite !init_reads_original_kwargs.
  unfold recognised_keys in Hk.
  rewrite !not_elem_of_cons in Hk. destruct Hk as (H1 & H2 & H3 & H4 & H5 & _).
  rewrite !lookup_insert_ne by done. reflexivity.
Qed.

End More.

Section Frame.
Context `{Collaborators}.

#[local] Instance grows_preorder : PreOrder grows.
Proof.
  split.
  - intros [h [] w]. repeat split; try done.
  - intros st1 st2 st3 (Ht1 & He1 & Hn1 & Hd1 & Hs1) (Ht2 & He2 & Hn2 & Hd2 & Hs2).
    repeat split.
    + congruence.
    + etrans; eassumption.
    + lia.
    + set_solver.
    + rewrite <- Hs1 at 2. rewrite <- Hs2.
      destruct (st_serving st3), (st_serving st2); reflexivity.
Qed.

Lemma respects_bind {A B} (m : M A) (k : A → M B) :
  respects grows m → (∀ a, respects grows (k a)) → respects grows (m ≫= k).
Proof.
  intros Hm Hk st. unfold mbind, M_bind. specialize (Hm st).
  destruct (m st) as [[a|e] st']; cbn [snd] in *.
  - etrans; [exact Hm|apply Hk].
  - exact Hm.
Qed.

Lemma respects_ret {A} (a : A) : respects grows (mret a).
Proof. intros st. reflexivity. Qed.

Lemma respects_raise {A} e : respects grows (@raise A e).
Proof. intros st. reflexivity. Qed.

Lemma respects_self : respects grows self.
Proof. intros st. reflexivity. Qed.

Lemma respects_serving : respects grows serving.
Proof. intros st. reflexivity. Qed.

Lemma respects_world : respects grows world.
Proof. intros st. reflexivity. Qed.

Lemma respects_modify_hook f :
  (∀ h, tool_attrs (f h) = tool_attrs h) → respects grows (modify_hook f).
Proof.
  intros Hf [h [] w]. unfold modify_hook; cbn. repeat split; try done. apply Hf.
Qed.

Lemma respects_set_response_headers hd :
  respects grows (modify_serving (set_response_headers hd)).
Proof. intros [h [] w]. unfold modify_serving; cbn. repeat split; done. Qed.

Lemma respects_emit ev : respects grows (modify_world (emit ev)).
Proof.
  intros [h [] w]. unfold modify_world, emit; cbn. repeat split; try done.
  by apply prefix_app_r.
Qed.

Lemma respects_update_span id f : respects grows (modify_world (update_span id f)).
Proof.
  intros [h [] w]. unfold modify_world, update_span, grows.
  cbn [st_hook st_serving st_world spans events next_span snd].
  repeat split; try done. rewrite dom_alter_L. done.
Qed.

Lemma respects_getattr {A} name (proj : Hook → option A) :
  respects grows (getattr name proj).
Proof. intros st. unfold getattr, self, mbind, M_bind. destruct (proj _); reflexivity. Qed.

Lemma respects_read_span id : respects grows (read_span id).
Proof. intros st. unfold read_span, world, mbind, M_bind. destruct (_ !! _); reflexivity. Qed.

Lemma respects_modify_world (f : World → World) :
  (∀ w, events w `prefix_of` events (f w)
        ∧ (next_span w ≤ next_span (f w))%nat
        ∧ dom (spans w) ⊆ dom (spans (f w))) →
  respects grows (modify_world f).
Proof.
  intros Hf [h [] w]. unfold modify_world, grows.
  cbn [st_hook st_serving st_world snd].
  destruct (Hf w) as (? & ? & ?). repeat split; done.
Qed.

Ltac respects_step :=
  first
    [ apply respects_ret | apply respects_raise | apply respects_self
    | apply respects_serving | apply respects_world | apply respects_getattr
    | apply respects_read_span | apply respects_emit
    | apply respects_update_span | apply respects_set_response_headers
    | (apply respects_modify_hook; intros ?; reflexivity)
    | (apply respects_bind; [|intros ?])
    | match goal with
      | |- respects _ (if ?b then _ else _) => destruct b
      | |- respects _ (match ?x with _ => _ end) => destruct x
      | |- respects _ (let '(_, _) := ?x in _) => destruct x
      end ].

Lemma respects_start_span tracer name t carrier :
  respects grows (_start_internal_or_server_span tracer name t carrier).
Proof.
  intros [h sv w].
  unfold _start_internal_or_server_span, world, mbind, M_bind, modify_world,
    mret, M_ret, emit, grows.
  cbn [st_hook st_serving st_world spans next_span events snd].
  destruct (start_span_decision tracer carrier w) as [[kind sampled] tok].
  cbn [st_hook st_serving st_world spans next_span events snd].
  repeat split.
  - by apply prefix_app_r.
  - lia.
  - rewrite dom_insert_L. set_solver.
  - destruct sv; reflexivity.
Qed.

Lemma respects_call_user_hook f id environ :
  respects grows (call_user_hook f id environ).
Proof. unfold call_user_hook. repeat respects_step. Qed.

Lemma respects_activation_exit a args : respects grows (activation_exit a args).
Proof.
  unfold activation_exit. repeat respects_step.
  apply respects_modify_world. intros w. unfold emit, update_span.
  cbn [spans next_span events]. repeat split.
  - by apply prefix_app_r.
  - lia.
  - rewrite dom_alter_L. done.
Qed.

Lemma callback_grows cb st : grows st (run_callback cb st).2.
Proof.
  revert st. change (respects grows (run_callback cb)).
  destruct cb; unfold run_callback, _on_start_resource_hook,
    _before_finalize_hook, _on_end_resource_hook, _after_error_response_hook,
    _on_end_request_hook, counter_add, histogram_record, context_detach,
    activation_enter; cbv zeta.
  all: repeat first [ apply respects_start_span | apply respects_call_user_hook
                    | apply respects_activation_exit | respects_step ].
Qed.

Lemma invoke_grows cb sv h w :
  grows (mkSt h sv w)
        (mkSt (invoke cb sv (h, w)).2.1 sv (invoke cb sv (h, w)).2.2).
Proof.
  pose proof (callback_grows cb (mkSt h sv w)) as Hg.
  unfold invoke. cbn [fst snd].
  destruct (run_callback cb (mkSt h sv w)) as [r [h' sv' w']].
  cbn [fst snd st_hook st_world] in *.
  destruct Hg as (? & ? & ? & ? & _). repeat split; try done.
  destruct sv; reflexivity.
Qed.

(** X2. Whatever callbacks run, for whatever requests and whether or
    not one of them raises: the attributes assigned by the constructor
    are unchanged, the event log has only been appended to, span ids are
    never reused and no span object has been removed. *)
Theorem callback_sequences_only_grow steps h w :
  tool_attrs (invoke_all steps (h, w)).2.1 = tool_attrs h
  ∧ events w `prefix_of` events (invoke_all steps (h, w)).2.2
  ∧ (next_span w ≤ next_span (invoke_all steps (h, w)).2.2)%nat
  ∧ dom (spans w) ⊆ dom (spans (invoke_all steps (h, w)).2.2).
Proof.
  revert h w. induction steps as [|[cb sv] steps IH]; intros h w.
  - cbn. repeat split; done.
  - cbn [invoke_all].
    pose proof (invoke_grows cb sv h w) as (Ht & He & Hn & Hd & _).
    cbn [st_hook st_world] in *.
    destruct (invoke cb sv (h, w)) as [[[]|e] [h1 w1]]; cbn [fst snd] in *.
    + destruct (IH h1 w1) as (Ht' & He' & Hn' & Hd').
      repeat split; [congruence|by etrans|lia|by etrans].
    + repeat split; done.
Qed.

(** X3. Callbacks of excluded requests can be dropped from any sequence
    of callbacks without changing its outcome, the hook or the world:
    requests to excluded paths never disturb the requests that run
    around them. *)
Theorem excluded_steps_removable steps h w :
  invoke_all steps (h, w)
  = invoke_all
      (filter (λ step, url_disabled (_otel_excluded_urls h)
                         (path_info (wsgi_environ step.2)) = false) steps)
      (h, w).
Proof.
  revert h w. induction steps as [|[cb sv] steps IH]; intros h w.
  - reflexivity.
  - rewrite filter_cons. cbn [snd].
    destruct (url_disabled (_otel_excluded_urls h) (path_info (wsgi_environ sv)))
      eqn:Hx.
    + rewrite decide_False by done. cbn [invoke_all].
      rewrite (invoke_eq _ _ _ _ _ _ _ _ (excluded_noop cb h sv w Hx)).
      apply IH.
    + rewrite decide_True by done. cbn [invoke_all].
      pose proof (invoke_grows cb sv h w) as (Ht & _).
      cbn [st_hook] in Ht.
      destruct (invoke cb sv (h, w)) as [[[]|e] [h1 w1]]; cbn [fst snd] in *;
        [|reflexivity].
      rewrite IH.
      assert (Hu : _otel_excluded_urls h1 = _otel_excluded_urls h)
        by (unfold tool_attrs in Ht; congruence).
      rewrite Hu. reflexivity.
Qed.

End Frame.

Section Response.
Context `{Collaborators}.

Lemma set_duration_attrs_same h d :
  duration_attrs h = Some d → set_duration_attrs d h = h.
Proof.
  intros Hd. apply hook_ext; unfold tool_attrs, record_attrs; mrun;
    rewrite ?Hd; reflexivity.
Qed.

Lemma on_end_resource_exact h sv w id d s :
  eligible h sv →
  span h = Some id →
  duration_attrs h = Some d →
  spans w !! id = Some s →
  run_callback OnEndResource (mkSt h sv w)
  = (Returned tt,
     mkSt (set_duration_attrs (merged_duration_attrs sv d) h) sv
          (mkWorld (<[id := annotate_response sv s]> (spans w))
                   (next_span w) (events w))).
Proof.
  intros [Hx He] Hsp Hd Hs.
  unfold run_callback, _on_end_resource_hook. mrun. rewrite Hx, He. mrun.
  rewrite Hsp. mrun.
  assert (Hw : spans w = <[id := s]> (spans w)) by (symmetry; apply insert_id, Hs).
  unfold merged_duration_attrs, annotate_response.
  set (s1 := add_response_attributes s (response_status sv) (response_headers sv)).
  set (custom := collect_custom_response_headers_attributes (response_headers sv)).
  assert (Hl : alter (λ s, add_response_attributes s (response_status sv)
                  (response_headers sv)) id (spans w) !! id = Some s1)
    by (rewrite lookup_alter_eq, Hs; reflexivity).
  assert (Ha : alter (λ s, add_response_attributes s (response_status sv)
                  (response_headers sv)) id (spans w) = <[id := s1]> (spans w))
    by (rewrite Hw at 1; rewrite alter_insert_eq; reflexivity).
  destruct (_parse_status_code (response_status sv)) as [code|]; mrun.
  - rewrite Hd. mrun. rewrite Hl. mrun.
    destruct (is_recording s1 && _); [destruct (bool_decide _)|]; mrun;
      (apply st_eq; [apply hook_ext; unfold tool_attrs, record_attrs; mrun; reflexivity|]);
      unfold update_span; mrun; rewrite Ha, ?alter_insert_eq; reflexivity.
  - rewrite Hl. mrun.
    destruct (is_recording s1 && _); [destruct (bool_decide _)|]; mrun;
      (apply st_eq; [symmetry; apply set_duration_attrs_same, Hd|]);
      unfold update_span; mrun; rewrite Ha, ?alter_insert_eq; reflexivity.
Qed.

(** X4. The numeric status code of the response is merged into the
    duration attributes by the response-ready callback and reaches the
    duration histogram at request end; a status line without a leading
    number leaves them as the start callback built them. The
    active-request attributes never carry the status code. *)
Theorem status_code_reaches_histogram h w sv0 sv1 svE n :
  eligible h sv0 →
  request_hook_returns h sv0 w →
  wsgi_environ sv1 = wsgi_environ sv0 →
  wsgi_environ svE = wsgi_environ sv0 →
  elapsed_ms (default_timer svE) (default_timer sv0) = inr n →
  ∃ h' w',
    invoke_all [(OnStartResource, sv0); (OnEndResource, sv1); (OnEndRequest, svE)]
               (h, w)
    = (Returned tt, (h', w'))
    ∧ histogram_records (events w')
      = (histogram_records (events w)
         ++ [(duration_histogram h, Z.max n 0,
              merged_duration_attrs sv1 (duration_attrs_of sv0))])%list
    ∧ counter_adds (events w')
      = (counter_adds (events w)
         ++ [(active_requests_counter h, 1, active_attrs_of sv0);
             (active_requests_counter h, -1, active_attrs_of sv0)])%list.
Proof.
  intros Hel Hr Henv1 HenvE Hn.
  pose proof (on_start_spec h sv0 w Hel Hr) as Hstart.
  set (h1 := started_hook h sv0 w) in *. set (w1 := started_world h sv0 w) in *.
  assert (Hel1 : eligible h1 sv1)
    by (eapply eligible_tool_attrs; [|exact Henv1|exact Hel]; reflexivity).
  pose proof (on_end_resource_exact h1 sv1 w1 (next_span w) (duration_attrs_of sv0)
                (annotate_request (wsgi_environ sv0) (after_request_hook h sv0 w))
                Hel1 eq_refl eq_refl) as Hmid.
  specialize (Hmid ltac:(unfold w1, started_world; cbn [spans]; apply lookup_insert_eq)).
  set (h2 := set_duration_attrs _ h1) in *. set (w2 := mkWorld _ _ _) in Hmid.
  assert (Hel2 : eligible h2 svE)
    by (eapply eligible_tool_attrs; [|exact HenvE|exact Hel]; reflexivity).
  pose proof (on_end_spec h2 svE w2 None (new_token h sv0 w) (default_timer sv0)
                (merged_duration_attrs sv1 (duration_attrs_of sv0))
                (active_attrs_of sv0) (next_span w)
                (annotate_response sv1
                   (annotate_request (wsgi_environ sv0) (after_request_hook h sv0 w)))
                n Hel2 eq_refl eq_refl eq_refl eq_refl eq_refl eq_refl) as Hend.
  specialize (Hend ltac:(unfold w2; cbn [spans]; apply lookup_insert_eq) Hn).
  eexists _, _. split.
  - cbn [invoke_all]. rewrite (invoke_eq _ _ _ _ _ _ _ _ Hstart).
    rewrite (invoke_eq _ _ _ _ _ _ _ _ Hmid).
    rewrite (invoke_eq _ _ _ _ _ _ _ _ Hend). reflexivity.
  - unfold ended_world, end_events, w2, w1, started_world. cbn [events].
    rewrite !histogram_records_app, !counter_adds_app.
    destruct (span_ended _), (new_token h sv0 w); cbn;
      rewrite ?app_nil_r, <- ?app_assoc; split; reflexivity.
Qed.

(** The before-finalize callback never touches the hook or the
    world, and of the serving data only the response headers: for an
    eligible request with a response propagator configured they become
    what the propagator injects, otherwise nothing changes at all. *)
Lemma before_finalize_only_injects h sv w :
  run_callback BeforeFinalize (mkSt h sv w)
  = (Returned tt,
     mkSt h
       (match get_global_response_propagator with
        | Some inject =>
            if url_disabled (_otel_excluded_urls h) (path_info (wsgi_environ sv))
            then sv
            else if _is_instrumented_by_opentelemetry h
                 then set_response_headers (inject w (response_headers sv)) sv
                 else sv
        | None => sv
        end) w).
Proof.
  unfold run_callback, _before_finalize_hook. mrun.
  destruct get_global_response_propagator as [inject|];
    destruct (url_disabled _ _); try reflexivity;
    destruct (_is_instrumented_by_opentelemetry h); reflexivity.
Qed.

(** X5. When the user's request hook raises, the start callback raises
    that same exception at once: the span has been created and stored
    with its token, but the request is not counted, the span is not
    activated, and no other record field is assigned. *)
Theorem request_hook_exception_propagates h sv w f e :
  eligible h sv →
  request_hook h = Some f →
  f (new_span h sv w) (wsgi_environ sv) = inl e →
  run_callback OnStartResource (mkSt h sv w)
  = (Raised e,
     mkSt (set_span_token (next_span w) (new_token h sv w) h) sv
          (mkWorld (<[next_span w := new_span h sv w]> (spans w))
                   (S (next_span w))
                   (events w ++ [EvStartSpan (next_span w)]))).
Proof.
  intros [Hx He] Hf Hraise.
  unfold run_callback, _on_start_resource_hook. mrun. rewrite Hx, He. mrun.
  unfold _start_internal_or_server_span. mrun.
  unfold new_token, new_span in *.
  destruct (start_span_decision _ _ _) as [[kind sampled] tok].
  cbn [fst snd] in *. rewrite Hf. unfold call_user_hook. mheap.
  rewrite Hraise. mrun. reflexivity.
Qed.

End Response.

Section Lifecycles.
Context `{Collaborators}.

Lemma on_end_finished_spec h sv w exc tok t0 d attrs id eoe n :
  eligible h sv →
  exception h = Some exc →
  activation h = Some (mkActivation id eoe true) →
  token h = Some tok →
  start h = Some t0 →
  duration_attrs h = Some d →
  active_requests_count_attrs h = Some attrs →
  elapsed_ms (default_timer sv) t0 = inr n →
  run_callback OnEndRequest (mkSt h sv w)
  = (Returned tt,
     mkSt h sv
       (mkWorld (spans w) (next_span w)
          (events w
           ++ [EvUseSpanExit id (exit_args_of exc)]
           ++ match tok with Some t => [EvContextDetach t] | None => [] end
           ++ [EvHistogramRecord (duration_histogram h) (Z.max n 0) d;
               EvCounterAdd (active_requests_counter h) (-1) attrs]))).
Proof.
  intros [Hx He] Hexc Hact Htok Hst Hd Ha Hn.
  unfold run_callback, _on_end_request_hook. mrun. rewrite Hx, He. mrun.
  rewrite Hexc. mrun. rewrite Hact. mrun.
  unfold duration_ms.
  destruct exc as [e|]; unfold activation_exit; mrun; rewrite Htok; mrun;
    destruct tok as [t|]; mrun; rewrite Hst; mrun; rewrite Hn; mrun;
    rewrite Hd; mrun; rewrite Ha; mrun;
    (apply st_eq; [reflexivity|]); unfold emit; mrun;
    rewrite <- ?app_assoc; reflexivity.
Qed.

Lemma middle_steps_full steps : ∀ h w sv id d exc,
  eligible h sv →
  middle_steps (wsgi_environ sv) steps →
  span h = Some id →
  duration_attrs h = Some d →
  exception h = Some exc →
  is_Some (spans w !! id) →
  ∃ h' w' d',
    invoke_all steps (h, w) = (Returned tt, (h', w'))
    ∧ same_request h h'
    ∧ duration_attrs h' = Some d'
    ∧ exception h' = Some (captured steps exc)
    ∧ events w' = events w
    ∧ next_span w' = next_span w
    ∧ is_Some (spans w' !! id)
    ∧ (∀ j, j ≠ id → spans w' !! j = spans w !! j).
Proof.
  induction steps as [|[cb sv1] steps IH]; intros h w sv id d exc Hel Hm Hsp Hd Hexc Hs.
  - exists h, w, d. cbn. repeat split; done.
  - apply Forall_cons in Hm as [[Hmid Henv] Hm]. cbn [fst snd] in Hmid, Henv.
    assert (Hel1 : eligible h sv1)
      by (eapply eligible_tool_attrs; [reflexivity|exact Henv|exact Hel]).
    destruct cb; try discriminate Hmid.
    + destruct (before_finalize_spec h sv1 w) as [sv' Hrun].
      destruct (IH h w sv id d exc Hel Hm Hsp Hd Hexc Hs)
        as (h' & w' & d' & Hinv & Hrest).
      exists h', w', d'. split; [|exact Hrest].
      cbn [invoke_all]. rewrite (invoke_eq _ _ _ _ _ _ _ _ Hrun). exact Hinv.
    + destruct (on_end_resource_spec h sv1 w id d Hel1 Hsp Hd Hs)
        as (d1 & w1 & Hrun & Hev & Hnx & Hs1 & Hfr).
      destruct (IH (set_duration_attrs d1 h) w1 sv id d1 exc)
        as (h' & w' & d' & Hinv & Hsame & Hd' & Hexc' & Hev' & Hnx' & Hs' & Hfr');
        try done.
      exists h', w', d'. split.
      { cbn [invoke_all]. rewrite (invoke_eq _ _ _ _ _ _ _ _ Hrun). exact Hinv. }
      split; [eapply same_request_trans; [|exact Hsame]; repeat split|].
      repeat split; try done; try congruence.
      intros j Hj. rewrite Hfr', Hfr by done. reflexivity.
    + pose proof (after_error_response_spec h sv1 w Hel1) as Hrun.
      destruct (IH (set_exception (exc_info sv1) h) w sv id d (exc_info sv1))
        as (h' & w' & d' & Hinv & Hsame & Hrest); try done.
      exists h', w', d'. split.
      { cbn [invoke_all]. rewrite (invoke_eq _ _ _ _ _ _ _ _ Hrun). exact Hinv. }
      split; [|exact Hrest].
      eapply same_request_trans; [|exact Hsame]. repeat split.
Qed.

(** Hook and world after one uninterrupted request. *)
Lemma lifecycle_full h w sv0 middle svE n :
  eligible h sv0 →
  request_hook_returns h sv0 w →
  middle_steps (wsgi_environ sv0) middle →
  wsgi_environ svE = wsgi_environ sv0 →
  elapsed_ms (default_timer svE) (default_timer sv0) = inr n →
  ∃ h' w' s d,
    invoke_all ((OnStartResource, sv0) :: middle ++ [(OnEndRequest, svE)]) (h, w)
    = (Returned tt, (h', w'))
    ∧ tool_attrs h' = tool_attrs h
    ∧ record_attrs h'
      = (Some (next_span w), Some (new_token h sv0 w),
         Some (active_attrs_of sv0), Some d,
         Some (mkActivation (next_span w) true true),
         Some (default_timer sv0), Some (captured middle None))
    ∧ events w'
      = (events (started_world h sv0 w)
         ++ end_events h (next_span w) s (captured middle None)
              (new_token h sv0 w) (Z.max n 0) d (active_attrs_of sv0))%list
    ∧ spans w' !! next_span w
      = Some (end_span (exit_status (exit_args_of (captured middle None)) s))
    ∧ next_span w' = S (next_span w)
    ∧ (∀ j, j ≠ next_span w → spans w' !! j = spans w !! j).
Proof.
  intros Hel Hr Hm HenvE Hn.
  pose proof (on_start_spec h sv0 w Hel Hr) as Hstart.
  set (h1 := started_hook h sv0 w) in *. set (w1 := started_world h sv0 w) in *.
  assert (Hel1 : eligible h1 sv0) by (eapply eligible_tool_attrs; [| |exact Hel]; reflexivity).
  destruct (middle_steps_full middle h1 w1 sv0 (next_span w) (duration_attrs_of sv0) None)
    as (h2 & w2 & d & Hmid & Hsame & Hd & Hexc & Hev & Hnx & [s Hs] & Hfr); try done.
  { unfold w1, started_world; cbn [spans]. rewrite lookup_insert_eq. eauto. }
  destruct Hsame as (Htool & Hsp & Htok & Ha & Hact & Hst).
  assert (Hel2 : eligible h2 svE) by (eapply eligible_tool_attrs; [exact Htool|exact HenvE|exact Hel1]).
  pose proof (on_end_spec h2 svE w2 (captured middle None) (new_token h sv0 w)
                (default_timer sv0) d (active_attrs_of sv0) (next_span w) s n
                Hel2 Hexc) as Hend.
  rewrite Hact, Htok, Hst, Ha in Hend.
  specialize (Hend eq_refl eq_refl eq_refl Hd eq_refl Hs Hn).
  eexists _, _, s, d. split.
  { cbn [invoke_all]. rewrite (invoke_eq _ _ _ _ _ _ _ _ Hstart).
    rewrite invoke_all_app, Hmid. cbn [invoke_all].
    rewrite (invoke_eq _ _ _ _ _ _ _ _ Hend). reflexivity. }
  assert (Hh : duration_histogram h2 = duration_histogram h
               ∧ active_requests_counter h2 = active_requests_counter h).
  { unfold tool_attrs in Htool. injection Htool as _ -> -> _ _ _ _ _ _ _. done. }
  destruct Hh as [Hh1 Hh2].
  unfold ended_world, end_events. cbn [spans next_span events].
  rewrite Hev, Hh1, Hh2, lookup_insert_eq, Hnx.
  split; [exact Htool|].
  split.
  { unfold record_attrs. mrun. rewrite Hsp, Htok, Ha, Hd, Hst, Hexc. reflexivity. }
  repeat split.
  intros j Hj. rewrite lookup_insert_ne by done. rewrite Hfr by done.
  unfold w1, started_world; cbn [spans]. rewrite lookup_insert_ne by done. reflexivity.
Qed.

End Lifecycles.

Section LifecycleProperties.
Context `{Collaborators}.


(** X7. A second end callback for a request that has already ended
    returns normally and ends no span again, since the activation is
    spent; but it detaches the token, records a duration and decrements
    the active-requests counter a second time. *)
Theorem repeated_end_counts_twice h w sv0 middle svE svE2 n n2 :
  eligible h sv0 →
  request_hook_returns h sv0 w →
  middle_steps (wsgi_environ sv0) middle →
  wsgi_environ svE = wsgi_environ sv0 →
  wsgi_environ svE2 = wsgi_environ sv0 →
  elapsed_ms (default_timer svE) (default_timer sv0) = inr n →
  elapsed_ms (default_timer svE2) (default_timer sv0) = inr n2 →
  ∃ h' w' d,
    invoke_all ((OnStartResource, sv0) :: middle ++ [(OnEndRequest, svE)]) (h, w)
    = (Returned tt, (h', w'))
    ∧ invoke OnEndRequest svE2 (h', w')
      = (Returned tt,
         (h', mkWorld (spans w') (next_span w')
                (events w'
                 ++ [EvUseSpanExit (next_span w)
                       (exit_args_of (captured middle None))]
                 ++ match new_token h sv0 w with
                    | Some t => [EvContextDetach t]
                    | None => []
                    end
                 ++ [EvHistogramRecord (duration_histogram h) (Z.max n2 0) d;
                     EvCounterAdd (active_requests_counter h) (-1)
                       (active_attrs_of sv0)]))).
Proof.
  intros Hel Hr Hm HenvE HenvE2 Hn Hn2.
  destruct (lifecycle_full h w sv0 middle svE n Hel Hr Hm HenvE Hn)
    as (h' & w' & s & d & Hrun & Htool & Hrec & _).
  exists h', w', d. split; [exact Hrun|].
  unfold record_attrs in Hrec.
  injection Hrec as Hsp Htok Ha Hd Hact Hst Hexc.
  assert (Hel' : eligible h' svE2)
    by (eapply eligible_tool_attrs; [exact Htool|exact HenvE2|exact Hel]).
  pose proof (on_end_finished_spec h' svE2 w' _ _ _ _ _ _ _ n2
                Hel' Hexc Hact Htok Hst Hd Ha Hn2) as Hend.
  assert (Hh : duration_histogram h' = duration_histogram h
               ∧ active_requests_counter h' = active_requests_counter h).
  { unfold tool_attrs in Htool. injection Htool as _ -> -> _ _ _ _ _ _ _. done. }
  destruct Hh as [Hh1 Hh2]. rewrite Hh1, Hh2 in Hend.
  apply (invoke_eq _ _ _ _ _ _ _ _ Hend).
Qed.


End LifecycleProperties.

Section MoreProperties.
Context `{Collaborators}.


Lemma fold_set_attribute (s : Span) (m : Attributes) :
  map_fold (λ key value acc, set_attribute key value acc) s m
  = set_attributes m s.
Proof.
  apply (map_fold_weak_ind (λ r m, r = set_attributes m s)).
  - unfold set_attributes. destruct (is_recording s); [|reflexivity].
    rewrite (left_id_L ∅ (∪)). destruct s; reflexivity.
  - intros i x m' r Hi ->. unfold set_attribute, set_attributes.
    destruct (is_recording s) eqn:Hr.
    + unfold is_recording in *. cbn [span_sampled span_ended]. rewrite Hr.
      cbn. rewrite insert_union_l. reflexivity.
    + rewrite Hr. reflexivity.
Qed.

(** X10. The start callback attaches to a recording span all computed
    request attributes, and the configured custom request headers on top
    only when the span is of kind SERVER; name, kind, status and the
    other fields of the span are left alone.  A span that is not
    recording is not changed at all. *)
Theorem request_attributes_on_span environ s :
  annotate_request environ s
  = if is_recording s then
      mkSpan (span_name s) (span_kind s) (span_start_time s) (span_sampled s)
        (match span_kind s with
         | SERVER =>
             collect_custom_request_headers_attributes environ
             ∪ (collect_request_attributes environ ∪ span_attributes s)
         | INTERNAL => collect_request_attributes environ ∪ span_attributes s
         end)
        (span_status s) (span_exceptions s) (span_ended s)
    else s.
Proof.
  unfold annotate_request. rewrite fold_set_attribute.
  destruct s as [nm kd tm smp atts st ex en].
  unfold set_attributes, is_recording.
  cbn [span_name span_kind span_start_time span_sampled span_attributes
       span_status span_exceptions span_ended].
  destruct (smp && negb en) eqn:Hr;
    cbn [span_name span_kind span_start_time span_sampled span_attributes
         span_status span_exceptions span_ended];
    rewrite ?Hr; [|reflexivity].
  destruct kd.
  - rewrite bool_decide_eq_true_2 by done. cbn [andb].
    destruct (bool_decide _) eqn:Hsz; [reflexivity|].
    apply bool_decide_eq_false in Hsz.
    assert (Hz : collect_custom_request_headers_attributes environ = ∅)
      by (apply map_size_empty_iff; lia).
    rewrite Hz, (left_id_L ∅ (∪)). reflexivity.
  - rewrite bool_decide_eq_false_2 by done. reflexivity.
Qed.

End MoreProperties.

Lemma round_half_even_nearest (s : bool) (m : positive) (e : Z) :
  let n := round_half_even s m e in
  (if s then n ≤ 0 else 0 ≤ n)
  ∧ (0 ≤ e → Z.abs n = Z.pos m * 2 ^ e)
  ∧ (e < 0 →
     2 * Z.abs (Z.abs n * 2 ^ (- e) - Z.pos m) ≤ 2 ^ (- e)
     ∧ (2 * Z.abs (Z.abs n * 2 ^ (- e) - Z.pos m) = 2 ^ (- e) →
        Z.even n = true)).
Proof.
  cbv zeta. unfold round_half_even.
  destruct (0 <=? e) eqn:He.
  - apply Z.leb_le in He.
    assert (0 < 2 ^ e) by (apply Z.pow_pos_nonneg; lia).
    assert (0 < Z.pos m * 2 ^ e) by nia.
    destruct s; repeat split; try lia.
  - apply Z.leb_gt in He.
    set (d := 2 ^ (- e)).
    assert (Hd : 0 < d) by (apply Z.pow_pos_nonneg; lia).
    pose proof (Z.div_mod (Z.pos m) d ltac:(lia)) as Hdm.
    pose proof (Z.mod_pos_bound (Z.pos m) d Hd) as Hb.
    assert (Hq : 0 ≤ Z.pos m / d) by (apply Z.div_pos; lia).
    set (q := Z.pos m / d) in *. set (r := Z.pos m mod d) in *.
    assert (Hev : ∀ x, Z.even (- x) = Z.even x)
      by (intros x; rewrite Z.even_opp; reflexivity).
    destruct (2 * r <? d) eqn:H1; [apply Z.ltb_lt in H1|apply Z.ltb_ge in H1].
    + destruct s; (split; [lia|]); (split; [lia|]); intros _; split; try nia.
    + destruct (d <? 2 * r) eqn:H2; [apply Z.ltb_lt in H2|apply Z.ltb_ge in H2].
      * destruct s; (split; [lia|]); (split; [lia|]); intros _; split; try nia.
      * assert (Ht : 2 * r = d) by lia.
        destruct (Z.even q) eqn:Hq2.
        -- destruct s; (split; [lia|]); (split; [lia|]); intros _; split;
             try nia; intros _; rewrite ?Hev; exact Hq2.
        -- assert (Z.even (q + 1) = true).
           { rewrite Z.even_add, Hq2. reflexivity. }
           destruct s; (split; [lia|]); (split; [lia|]); intros _; split;
             try nia; intros _; rewrite ?Hev; assumption.
Qed.

(** X11. [round] as the end callback uses it: on a finite float of value
    (-1)^s * m * 2^e it returns an integer and never raises; the result
    has the sign of the value, is the exact value when e >= 0, and is
    otherwise a nearest integer, a tie going to the even neighbour.  So
    the recorded duration is within half a millisecond of the
    floating-point product. *)
Theorem py_round_nearest (x : float) (s : bool) (m : positive) (e : Z) :
  Prim2SF x = S754_finite s m e →
  ∃ n,
    py_round x = inr n
    ∧ (if s then n ≤ 0 else 0 ≤ n)
    ∧ (0 ≤ e → Z.abs n = Z.pos m * 2 ^ e)
    ∧ (e < 0 →
       2 * Z.abs (Z.abs n * 2 ^ (- e) - Z.pos m) ≤ 2 ^ (- e)
       ∧ (2 * Z.abs (Z.abs n * 2 ^ (- e) - Z.pos m) = 2 ^ (- e) →
          Z.even n = true)).
Proof.
  intros Hx. exists (round_half_even s m e). unfold py_round. rewrite Hx.
  split; [reflexivity|]. apply round_half_even_nearest.
Qed.


(** ** The further properties on concrete requests *)

Lemma init_ignores_other_keys_witness :
  __init__ (<["meter_provider" := PyProvider (SuppliedProvider "sdk")]> ∅)
  = __init__ ∅.
Proof.
  apply (init_ignores_other_keys ∅ "meter_provider"
           (PyProvider (SuppliedProvider "sdk"))).
  unfold recognised_keys. rewrite !not_elem_of_cons.
  repeat split; try discriminate. apply not_elem_of_nil.
Defined.

Lemma status_code_reaches_histogram_witness :
  ∃ h' w',
    invoke_all [(OnStartResource, get_start); (OnEndResource, get_ready);
                (OnEndRequest, get_end)] (hook0, empty_world)
    = (Returned tt, (h', w'))
    ∧ histogram_records (events w')
      = (histogram_records (events empty_world)
         ++ [(duration_histogram hook0, Z.max 250 0,
              merged_duration_attrs get_ready (duration_attrs_of get_start))])%list
    ∧ counter_adds (events w')
      = (counter_adds (events empty_world)
         ++ [(active_requests_counter hook0, 1, active_attrs_of get_start);
             (active_requests_counter hook0, -1, active_attrs_of get_start)])%list.
Proof.
  apply (status_code_reaches_histogram hook0 empty_world get_start get_ready
           get_end 250).
  - split; vm_compute; reflexivity.
  - vm_compute. exact I.
  - reflexivity.
  - reflexivity.
  - vm_compute. reflexivity.
Defined.

(** The status code 200 is among the duration attributes of that GET. *)
Example get_hello_duration_attrs :
  merged_duration_attrs get_ready (duration_attrs_of get_start) !! HTTP_STATUS_CODE
  = Some (VInt 200)
  ∧ active_attrs_of get_start !! HTTP_STATUS_CODE = None.
Proof. vm_compute. split; reflexivity. Qed.

Lemma request_hook_exception_propagates_witness :
  run_callback OnStartResource (mkSt hook_raising get_start empty_world)
  = (Raised handler_error,
     mkSt (set_span_token (next_span empty_world)
             (new_token hook_raising get_start empty_world) hook_raising)
          get_start
          (mkWorld (<[next_span empty_world :=
                        new_span hook_raising get_start empty_world]>
                      (spans empty_world))
                   (S (next_span empty_world))
                   (events empty_world ++ [EvStartSpan (next_span empty_world)]))).
Proof.
  apply (request_hook_exception_propagates hook_raising get_start empty_world
           raising_hook handler_error).
  - split; vm_compute; reflexivity.
  - reflexivity.
  - reflexivity.
Defined.


Lemma repeated_end_counts_twice_witness :
  ∃ h' w' d,
    invoke_all ((OnStartResource, get_start)
                :: [(OnEndResource, get_ready)] ++ [(OnEndRequest, get_end)])
               (hook0, empty_world)
    = (Returned tt, (h', w'))
    ∧ invoke OnEndRequest get_end_again (h', w')
      = (Returned tt,
         (h', mkWorld (spans w') (next_span w')
                (events w'
                 ++ [EvUseSpanExit (next_span empty_world)
                       (exit_args_of (captured [(OnEndResource, get_ready)] None))]
                 ++ match new_token hook0 get_start empty_world with
                    | Some t => [EvContextDetach t]
                    | None => []
                    end
                 ++ [EvHistogramRecord (duration_histogram hook0) (Z.max 500 0) d;
                     EvCounterAdd (active_requests_counter hook0) (-1)
                       (active_attrs_of get_start)]))).
Proof.
  apply (repeated_end_counts_twice hook0 empty_world get_start
           [(OnEndResource, get_ready)] get_end get_end_again 250 500).
  - split; vm_compute; reflexivity.
  - vm_compute. exact I.
  - repeat constructor.
  - reflexivity.
  - reflexivity.
  - vm_compute. reflexivity.
  - vm_compute. reflexivity.
Defined.



Lemma py_round_nearest_witness :
  ∃ n,
    py_round 187.5%float = inr n
    ∧ 0 ≤ n
    ∧ (0 ≤ -45 → Z.abs n = Z.pos 6597069766656000 * 2 ^ (-45))
    ∧ (-45 < 0 →
       2 * Z.abs (Z.abs n * 2 ^ (- -45) - Z.pos 6597069766656000) ≤ 2 ^ (- -45)
       ∧ (2 * Z.abs (Z.abs n * 2 ^ (- -45) - Z.pos 6597069766656000)
          = 2 ^ (- -45) →
          Z.even n = true)).
Proof.
  apply (py_round_nearest 187.5%float false 6597069766656000 (-45)).
  vm_compute. reflexivity.
Defined.

(** On the tie 187.5 the even neighbour 188 is taken. *)
Example py_round_tie_to_even : py_round 187.5%float = inr 188.
Proof. vm_compute. reflexivity. Qed.

